(** * Household chores backend: task controllers

    A shallow embedding of the two NestJS controllers
    [controllers/tasks/tasks.controller.ts] and
    [controllers/house/house.controller.ts]: the task endpoints (create,
    list, delete, complete, modify) and the house endpoints (create, get,
    join), together with the recurrence and assignment engine they call.

    The controllers are [async] methods that read and write three document
    collections through injected store services and raise [HttpException]s.
    They are embedded as computations in a state-and-exception monad over a
    [World] holding the three collections, the wall clock and the random
    source.  Every store call is one atomic step.  The world a handler ends
    in is the world once every write it has started has landed, also a write
    the source does not [await].  Where the source goes on to read the store
    after writes it did not await (the reload of [getTasksForHouse]), which
    of these writes the read sees is a parameter of the handler. *)

From stdpp Require Import gmap strings list fin_maps.
From Stdlib Require Import ZArith.

Open Scope string_scope.

(** ** Data model *)

(** Mongo [ObjectId]s and Firebase user ids are both carried as strings: a
    route parameter [:id] reaches the controller as a string and is handed to
    the store as it is. *)
Abbreviation ObjectId := string (only parsing).
Abbreviation Uid := string (only parsing).

(** Modelled from the spec: the user schema is not part of the sources.  A
    user document as far as the task endpoints read it: its [_id] and the
    reference to the member's household, if any (spec §3, Member). *)
Record UserDocument := mkUser {
  _id : ObjectId;
  user_house : option ObjectId
}.

(** Modelled from the spec: the house schema is not part of the sources.  A
    house document (spec §3, Household): [owner] is the [_id] of a user
    document. *)
Record HouseDocument := mkHouse {
  owner : ObjectId;
  code : string;
  house_name : string
}.

(** Modelled from the spec: the task schema [db/task/task.schema.ts] is not
    part of the sources.  The fields are those of the spec's Task (§3): owning
    household, name, description, pool, assigned member (or unset), interval,
    due date and last completion (or unset).  [interval] and [due_date] are
    optional because the spec names tasks that miss them (malformed tasks).
    Timestamps and intervals are integers in one time unit. *)
Record Task := mkTask {
  house : ObjectId;
  name : string;
  description : string;
  pool : list Uid;
  assigned : option Uid;
  interval : option Z;
  due_date : option Z;
  last_completed : option Z
}.

(** A stored task with the key it is stored under ([task._id], [task.id]). *)
Abbreviation TaskDocument := (string * Task)%type (only parsing).

(** Modelled from the spec: [dto/create-task.dto.ts] is not part of the
    sources.  The body of a create-task request carries the fields of the
    spec's Task that the caller chooses; the controller sets [assigned] and
    [house] itself before the document is stored. *)
Record CreateTaskDto := mkCreateTaskDto {
  c_name : string;
  c_description : string;
  c_pool : list Uid;
  c_interval : option Z;
  c_due_date : option Z
}.

(** Modelled from the spec: [dto/update-house-tasks.dto.ts] is not part of
    the sources.  The body of a modify-task request (name, description or
    pool, spec §4.3): every field may be left out. *)
Record UpdateHouseTasksDto := mkUpdateHouseTasksDto {
  d_name : option string;
  d_description : option string;
  d_pool : option (list Uid)
}.

(** The body of a complete-task request: the controller reads [isComplete]. *)
Record CompleteTaskDto := mkCompleteTaskDto { isComplete : bool }.

(** A value that is [null] or not. *)
Inductive Nullable (A : Type) :=
  | null
  | notNull (a : A).
Arguments null {A}.
Arguments notNull {A} a.

(** The object handed to [taskStoreService.update].  A field is [None] when
    the object has no such key.  The key [assigned] carries a member id or
    [undefined] ([Some None]): [undefined] is what modify-task writes when it
    has no assignee to set (tasks.controller.ts line 236), and what a
    selector that answers nothing gives.  The key [last_completed] carries a
    date or [null] ([Some null]): [null] is what complete-task writes to
    clear the completion (line 187). *)
Record TaskPartial := mkTaskPartial {
  p_name : option string;
  p_description : option string;
  p_pool : option (list Uid);
  p_assigned : option (option Uid);
  p_due_date : option Z;
  p_last_completed : option (Nullable Z)
}.

(** One element of the array returned by [checkRecurrence]: the controller
    reads [task.id] and [task.updatedTask] from it. *)
Record DueTask := mkDueTask {
  due_id : ObjectId;
  updatedTask : TaskPartial
}.

(** ** Exceptions *)

Inductive HttpStatus := NO_CONTENT | BAD_REQUEST | NOT_FOUND.

Definition statusCode (s : HttpStatus) : Z :=
  match s with
  | NO_CONTENT => 204
  | BAD_REQUEST => 400
  | NOT_FOUND => 404
  end.

(** What a handler can throw: the [HttpException]s the controllers raise
    themselves, the [TypeError] of JavaScript for a property read on [null]
    or [undefined], and the two failures the spec gives to the recurrence
    and assignment engine. *)
Inductive Exception :=
  | HttpException (message : string) (status : HttpStatus)
  | TypeError (reading : string)
  | InvalidPoolError
  | MalformedTaskError.

(** The failures of the spec's taxonomy (§7) as the controllers raise them. *)
Definition NotInHouseholdError : Exception :=
  HttpException "user is not in a house" BAD_REQUEST.
Definition EmptyPoolError : Exception :=
  HttpException "pool is empty" BAD_REQUEST.
Definition NotOwnerError : Exception :=
  HttpException "user is not the owner of the house" BAD_REQUEST.
Definition NotAssignedError : Exception :=
  HttpException "user is not assigned to task" BAD_REQUEST.
Definition TaskNotFoundError : Exception :=
  HttpException "task not found" NOT_FOUND.

(** ** The world and the handler monad *)

Record World := mkWorld {
  users : gmap string UserDocument;     (* keyed by Firebase id *)
  houses : gmap string HouseDocument;   (* keyed by [_id] *)
  tasks : gmap string Task;             (* keyed by [_id] *)
  clock : Z;                            (* what [new Date()] reads *)
  random : list nat                     (* the injected random source *)
}.

Definition set_tasks (ts : gmap string Task) (w : World) : World :=
  mkWorld (users w) (houses w) ts (clock w) (random w).

Definition set_random (r : list nat) (w : World) : World :=
  mkWorld (users w) (houses w) (tasks w) (clock w) r.

Definition set_users (us : gmap string UserDocument) (w : World) : World :=
  mkWorld us (houses w) (tasks w) (clock w) (random w).

Definition set_houses (hs : gmap string HouseDocument) (w : World) : World :=
  mkWorld (users w) hs (tasks w) (clock w) (random w).

(** Time passing between two requests. *)
Definition set_clock (c : Z) (w : World) : World :=
  mkWorld (users w) (houses w) (tasks w) c (random w).

Inductive Outcome (A : Type) :=
  | Return (a : A)
  | Throw (e : Exception).
Arguments Return {A} a.
Arguments Throw {A} e.

Definition M (A : Type) : Type := World → Outcome A * World.

Definition ret {A} (a : A) : M A := λ w, (Return a, w).

Definition throw {A} (e : Exception) : M A := λ w, (Throw e, w).

Definition bind {A B} (c : M A) (k : A → M B) : M B :=
  λ w, match c w with
       | (Return a, w') => k a w'
       | (Throw e, w') => (Throw e, w')
       end.

Notation "'let!' x ':=' c 'in' k" := (bind c (λ x, k))
  (at level 10, x pattern, c at level 100, k at level 200).

(** The status of the response built from a handler's outcome: the handler's
    success code when it returns, the status of an [HttpException], and 500
    for any other exception. *)
Definition responseStatus {A} (successCode : Z) (o : Outcome A) : Z :=
  match o with
  | Return _ => successCode
  | Throw (HttpException _ s) => statusCode s
  | Throw _ => 500
  end.

(** Reading a property of a value that may be [null]. *)
Definition deref {A} (reading : string) (o : option A) : M A :=
  match o with
  | Some a => ret a
  | None => throw (TypeError reading)
  end.

(** [arr.forEach(f)] for an effectful [f], in array order. *)
Fixpoint forEach {A} (f : A → M unit) (l : list A) : M unit :=
  match l with
  | [] => ret tt
  | x :: l' => let! _ := f x in forEach f l'
  end.

(** [new Date()] and [Date.now()]. *)
Definition Date_now : M Z := λ w, (Return (clock w), w).

(** ** Store services

    The three store services ([db/user/userStore.service.ts],
    [db/house/houseStore.service.ts], [db/task/taskStore.service.ts]) are not
    part of the sources; the controllers reach them through injection.  They
    are modelled as the keyed record stores of the spec's §6. *)

Module userStoreService.

(** Modelled from the spec: [findOneByFirebaseId] of the user store service,
    which is not part of the sources.  Spec §6, Member Directory
    [findByExternalId]: the user document stored for the Firebase id, or
    [null]. *)
Definition findOneByFirebaseId (uid : Uid) : M (option UserDocument) :=
  λ w, (Return (users w !! uid), w).

(** Modelled from the spec: [updateByFirebaseId(uid, { house })] of the user
    store service, which is not part of the sources.  Spec §6, Member
    Directory [setHousehold(externalId, householdId)]: the household
    reference of the user stored for the Firebase id is replaced; nothing
    happens when no user is stored for it. *)
Definition updateByFirebaseId (uid : Uid) (hid : ObjectId) : M unit :=
  λ w, (Return tt,
        set_users (alter (λ u, mkUser (_id u) (Some hid)) uid (users w)) w).

(** Modelled from the spec: [findOne] of the user store service, which is not
    part of the sources.  Spec §6, Member Directory [findByIdentity(id)]: the
    user document whose [_id] is [id], with the Firebase id it is stored for
    ([firebaseId]), or [null]. *)
Definition findOne (id : ObjectId) : M (option (Uid * UserDocument)) :=
  λ w, (Return (head (filter (λ d, _id d.2 = id) (map_to_list (users w)))), w).

End userStoreService.

Module houseStoreService.

(** Modelled from the spec: [findOne] of the house store service, which is
    not part of the sources.  Spec §6, Household Directory [findById]: the
    house document stored under the id, or [null].  The answer carries the
    key as the document's [_id]. *)
Definition findOne (hid : ObjectId) : M (option (ObjectId * HouseDocument)) :=
  λ w, (Return ((λ h, (hid, h)) <$> houses w !! hid), w).

(** Modelled from the spec: [findOneByCode] of the house store service, which
    is not part of the sources.  Spec §6, Household Directory
    [findByCode(code) -> Household|absent]: a stored house with that join
    code (the first in store order), or [null]. *)
Definition findOneByCode (c : string) : M (option (ObjectId * HouseDocument)) :=
  λ w, (Return (head (filter (λ d, code d.2 = c) (map_to_list (houses w)))), w).

(** Modelled from the spec: [create] of the house store service, which is not
    part of the sources.  Spec §6, Household Directory [create(spec)]: stores
    the house under a key that is not in use and answers the stored
    document. *)
Definition create (h : HouseDocument) : M (ObjectId * HouseDocument) :=
  λ w, let hid := fresh (dom (houses w)) in
       (Return (hid, h), set_houses (<[hid := h]> (houses w)) w).

End houseStoreService.

(** Modelled from the spec: what [update(id, partial)] of the task store
    service, which is not part of the sources, does to the stored task.
    Spec §6 gives [update(id, partial) -> void] and §4.4 the fields a
    rollover persists; the spec does not say what a key does whose value is
    [undefined].  A key with a value overwrites the field; [null] clears it,
    as the controller relies on where it clears a field (tasks.controller.ts
    line 187); a key whose value is [undefined] is left out of the write, so
    the stored field is kept; the fields without a key are kept. *)
Definition applyPartial (p : TaskPartial) (t : Task) : Task :=
  mkTask (house t)
         (default (name t) (p_name p))
         (default (description t) (p_description p))
         (default (pool t) (p_pool p))
         (match p_assigned p with
          | Some (Some a) => Some a
          | Some None => assigned t
          | None => assigned t
          end)
         (interval t)
         (match p_due_date p with Some d => Some d | None => due_date t end)
         (match p_last_completed p with
          | Some (notNull c) => Some c
          | Some null => None
          | None => last_completed t
          end).

Module taskStoreService.

(** Modelled from the spec: [findOne] of the task store service, which is not
    part of the sources.  Spec §6, Task Store [findById]: the task stored
    under the id with its key, or [null]. *)
Definition findOne (id : ObjectId) : M (option TaskDocument) :=
  λ w, (Return ((λ t, (id, t)) <$> tasks w !! id), w).

(** Modelled from the spec: [findAll] of the task store service, which is not
    part of the sources.  Spec §6 and §4.4: every stored task, in store
    order. *)
Definition findAll : M (list TaskDocument) :=
  λ w, (Return (map_to_list (tasks w)), w).

(** Modelled from the spec: [create] of the task store service, which is not
    part of the sources.  Spec §6: stores the task, here under a key that is
    not in use, and answers the stored document. *)
Definition create (t : Task) : M TaskDocument :=
  λ w, let id := fresh (dom (tasks w)) in
       (Return (id, t), set_tasks (<[id := t]> (tasks w)) w).

(** Modelled from the spec: [update] of the task store service, which is not
    part of the sources.  Spec §6, [update(id, partial) -> void]: the stored
    task is changed by [applyPartial]; nothing happens when no task is stored
    under [id]. *)
Definition update (id : ObjectId) (p : TaskPartial) : M unit :=
  λ w, (Return tt, set_tasks (alter (applyPartial p) id (tasks w)) w).

(** Modelled from the spec: [delete] of the task store service, which is not
    part of the sources.  Spec §6, [delete(id) -> void]: the task stored
    under [id] is removed. *)
Definition delete (id : ObjectId) : M unit :=
  λ w, (Return tt, set_tasks (base.delete id (tasks w)) w).

End taskStoreService.

(** ** The injected utilities

    [TaskUtil] ([controllers/tasks/tasks.util.ts]) and [HouseUtil]
    ([controllers/house/house.util.ts]) are injected into the controllers
    through their constructors; the controllers call two of their methods.
    The controllers below take them as a record of these two methods. *)

Record TaskUtil := mkTaskUtil {
  selectRandomUser : list Uid → M (option Uid);
  checkRecurrence : list TaskDocument → M (list DueTask)
}.

Abbreviation HouseUtil := TaskUtil (only parsing).

(** *** The Assignment Selector of the spec *)

(** The next draw of the injected random source (an exhausted source keeps
    answering 0). *)
Definition nextDraw (r : list nat) : nat * list nat :=
  match r with
  | [] => (0%nat, [])
  | n :: r' => (n, r')
  end.

(** Modelled from the spec: [selectRandomUser] of [tasks.util.ts] and
    [house.util.ts] is not part of the sources.  Spec §4.1: picks one member
    of a non-empty pool, at the index the random source gives; fails with
    [InvalidPoolError] on the empty pool; no effect but the draw. *)
Definition spec_selectRandomUser (pool : list Uid) : M (option Uid) :=
  λ w, match pool with
       | [] => (Throw InvalidPoolError, w)
       | _ :: _ =>
           let (n, r') := nextDraw (random w) in
           (Return (pool !! (n mod length pool)%nat), set_random r' w)
       end.

(** *** The Recurrence Evaluator of the spec *)

Record NewTaskState := mkNewTaskState {
  new_due_date : Z;
  new_last_completed : option Z;
  new_assigned : option Uid
}.

Record Evaluation := mkEvaluation {
  due : bool;
  rollover : option NewTaskState
}.

(** Modelled from the spec: [checkRecurrence] of [tasks.util.ts] is not part
    of the sources (the house controller only keeps an unused draft of it in
    a comment).  Spec §4.2, [evaluate(task, now)]: a task is due for rollover
    when [now >= due_date + interval]; the rollover moves [due_date] to
    [due_date + interval], resets [last_completed] to unset, keeps a set
    [assigned] and fills an unset one from [pool] through the Assignment
    Selector; a task that is not due produces no state; a task without
    interval or due date fails with [MalformedTaskError]. *)
Definition evaluate (t : Task) (now : Z) : M Evaluation :=
  match due_date t, interval t with
  | Some d, Some i =>
      if bool_decide (d + i ≤ now)%Z then
        let! a := match assigned t with
                  | Some u => ret (Some u)
                  | None => spec_selectRandomUser (pool t)
                  end in
        ret (mkEvaluation true (Some (mkNewTaskState (d + i) None a)))
      else ret (mkEvaluation false None)
  | _, _ => throw MalformedTaskError
  end.

(** The partial object a rollover writes back: new due date, the completion
    ([null] when it is reset), and the assignee. *)
Definition rolloverPartial (s : NewTaskState) : TaskPartial :=
  mkTaskPartial None None None
                (Some (new_assigned s))
                (Some (new_due_date s))
                (Some (match new_last_completed s with
                       | Some c => notNull c
                       | None => null
                       end)).

Fixpoint checkRecurrenceAt (now : Z) (ts : list TaskDocument) : M (list DueTask) :=
  match ts with
  | [] => ret []
  | (id, t) :: ts' =>
      let! e := evaluate t now in
      let! rest := checkRecurrenceAt now ts' in
      ret (match rollover e with
           | Some s => mkDueTask id (rolloverPartial s) :: rest
           | None => rest
           end)
  end.

(** Modelled from the spec: [checkRecurrence(tasks)] evaluates every task it
    is given at the current instant and answers the rollovers of the tasks
    that are due, each with the [id] of its task (§4.4). *)
Definition spec_checkRecurrence (ts : list TaskDocument) : M (list DueTask) :=
  let! now := Date_now in checkRecurrenceAt now ts.

Definition specUtil : TaskUtil :=
  mkTaskUtil spec_selectRandomUser spec_checkRecurrence.

(** ** Helpers shared by the two controllers *)

(** [pool.includes(x)] for an [x] that may be [undefined]: a pool holds
    member ids only, so it never includes [undefined]. *)
Definition includes (pool : list Uid) (x : option Uid) : bool :=
  match x with
  | Some u => bool_decide (u ∈ pool)
  | None => false
  end.

(** [tasks.filter((task) => task.house.equals(house._id))]. *)
Definition tasksOfHouse (hid : ObjectId) (ts : list TaskDocument) : list TaskDocument :=
  filter (λ d, house d.2 = hid) ts.

(** [getTasksForHouse] starts one write for each element of the array that
    [checkRecurrence] answers and does not await any of them before it
    reloads the tasks.  [sched i] tells whether the write for the [i]-th
    element has landed when the reload is answered.  [pendingWrites sched b i
    l] are the elements of [l], numbered from [i], whose write has landed
    ([b = true]) or is still in flight ([b = false]) at that moment. *)
Fixpoint pendingWrites (sched : nat → bool) (b : bool) (i : nat)
    (l : list DueTask) : list DueTask :=
  match l with
  | [] => []
  | d :: l' =>
      if eqb (sched i) b then d :: pendingWrites sched b (S i) l'
      else pendingWrites sched b (S i) l'
  end.

(** The document [taskStoreService.create] receives: the request body after
    the controller has set [assigned] and [house] on it. *)
Definition newTask (dto : CreateTaskDto) (a : option Uid) (hid : ObjectId) : Task :=
  mkTask hid (c_name dto) (c_description dto) (c_pool dto) a
         (c_interval dto) (c_due_date dto) None.

(** [updatedTask.assigned = a]. *)
Definition withAssigned (a : option Uid) (p : TaskPartial) : TaskPartial :=
  mkTaskPartial (p_name p) (p_description p) (p_pool p) (Some a)
                (p_due_date p) (p_last_completed p).

(** ** tasks.controller.ts *)

Module TasksController.

Section Handlers.

(** [isValidObjectId] of mongoose, on a route parameter. *)
Variable isValidObjectId : string → bool.

(** The injected [TaskUtil]. *)
Variable taskUtil : TaskUtil.

(** [POST /tasks] *)
Definition createTask (createTaskDto : CreateTaskDto) (uid : Uid) : M unit :=
  let! userDoc := userStoreService.findOneByFirebaseId uid in
  let! userDoc := deref "house" userDoc in
  match user_house userDoc with
  | Some hid =>
      let! house := houseStoreService.findOne hid in
      match house with
      | Some house =>
          if bool_decide (length (c_pool createTaskDto) < 1)%nat then
            throw (HttpException "pool is empty" BAD_REQUEST)
          else
            let! a := selectRandomUser taskUtil (c_pool createTaskDto) in
            let! _ := taskStoreService.create (newTask createTaskDto a house.1) in
            ret tt
      | None => throw (HttpException "user is not in a house" BAD_REQUEST)
      end
  | None => throw (HttpException "user is not in a house" BAD_REQUEST)
  end.

(** [GET /tasks].  [tasksDue.forEach(async (task) => await update(...))]
    starts the writes and goes on without awaiting them: the writes that have
    landed by then ([sched]) are seen by the reload, the others land after
    the reload has been answered. *)
Definition getTasksForHouse (sched : nat → bool) (uid : Uid) : M (list TaskDocument) :=
  let! userDoc := userStoreService.findOneByFirebaseId uid in
  let! userDoc := deref "house" userDoc in
  match user_house userDoc with
  | Some hid =>
      let! house := houseStoreService.findOne hid in
      match house with
      | Some house =>
          let! tasks := taskStoreService.findAll in
          let tasksForHouse := tasksOfHouse house.1 tasks in
          let! tasksDue := checkRecurrence taskUtil tasksForHouse in
          let! _ := forEach (λ task, taskStoreService.update (due_id task) (updatedTask task))
                            (pendingWrites sched true 0 tasksDue) in
          let! updatedTasks := taskStoreService.findAll in
          let! _ := forEach (λ task, taskStoreService.update (due_id task) (updatedTask task))
                            (pendingWrites sched false 0 tasksDue) in
          let updatedTasksForHouse := tasksOfHouse house.1 updatedTasks in
          ret updatedTasksForHouse
      | None => throw (HttpException "user is not in a house" BAD_REQUEST)
      end
  | None => throw (HttpException "user is not in a house" BAD_REQUEST)
  end.

(** [DELETE /tasks/:id], with [@HttpCode(204)]. *)
Definition deleteTaskFromHouse_HttpCode : Z := 204.

Definition deleteTaskFromHouse (id : string) (uid : Uid) : M string :=
  let! userDoc := userStoreService.findOneByFirebaseId uid in
  let! userDoc := deref "house" userDoc in
  match user_house userDoc with
  | Some hid =>
      let! house := houseStoreService.findOne hid in
      let! task := taskStoreService.findOne id in
      let! house := deref "owner" house in
      if bool_decide (owner house.2 = _id userDoc) then
        let! task := deref "_id" task in
        let! _ := taskStoreService.delete task.1 in
        ret "task deleted successfully"
      else
        throw (HttpException "user is not the owner of the house" BAD_REQUEST)
  | None => throw (HttpException "user is not in the house" BAD_REQUEST)
  end.

(** [PUT /task/:id/completed] *)
Definition markTaskAsComplete (completeTaskDto : CompleteTaskDto) (id : string)
    (uid : Uid) : M unit :=
  if negb (isValidObjectId id) then
    throw (HttpException "task does not exist" NOT_FOUND)
  else
    let! task := taskStoreService.findOne id in
    match task with
    | Some task =>
        if negb (bool_decide (assigned task.2 = Some uid)) then
          throw (HttpException "user is not assigned to task" BAD_REQUEST)
        else
          let! _ :=
            if isComplete completeTaskDto then
              let! now := Date_now in
              taskStoreService.update task.1
                (mkTaskPartial None None None None None (Some (notNull now)))
            else
              taskStoreService.update task.1
                (mkTaskPartial None None None None None (Some null)) in
          ret tt
    | None => throw (HttpException "task not found" NOT_FOUND)
    end.

(** [PUT /task/:id] *)
Definition modifyTask (id : string) (uid : Uid)
    (updateHouseTasksDto : UpdateHouseTasksDto) : M unit :=
  let! userDoc := userStoreService.findOneByFirebaseId uid in
  let! userDoc := deref "house" userDoc in
  match user_house userDoc with
  | Some hid =>
      let! house := houseStoreService.findOne hid in
      if negb (isValidObjectId id) then
        throw (HttpException "task does not exist" NOT_FOUND)
      else
        let! task := taskStoreService.findOne id in
        match task with
        | Some task =>
            let updatedTask :=
              mkTaskPartial (d_name updateHouseTasksDto)
                            (d_description updateHouseTasksDto)
                            (d_pool updateHouseTasksDto)
                            (Some (assigned task.2)) None None in
            let! house := deref "owner" house in
            if negb (bool_decide (owner house.2 = _id userDoc)) then
              throw (HttpException "user is not owner of house" BAD_REQUEST)
            else
              let! a :=
                match d_pool updateHouseTasksDto with
                | Some pool =>
                    if negb (includes pool (assigned task.2)) then
                      selectRandomUser taskUtil pool
                    else ret None
                | None => ret None
                end in
              let updatedTask := withAssigned a updatedTask in
              let! _ := taskStoreService.update task.1 updatedTask in
              ret tt
        | None => throw (HttpException "task does not exist" NOT_FOUND)
        end
  | None => throw (HttpException "user is not in the house" BAD_REQUEST)
  end.

End Handlers.

End TasksController.

(** ** Data of the house endpoints *)

(** Modelled from the spec: [dto/create-house.dto.ts] is not part of the
    sources.  The body of a create-house request as far as [HouseDocument]
    carries it: the name (the contact fields [address] and [email] are stored
    and answered as they come and are not carried here); the controller sets
    [code] and [owner] itself. *)
Record CreateHouseDto := mkCreateHouseDto { ch_name : string }.

(** The body of a join-house request: the controller reads [houseCode]. *)
Record JoinHouseDto := mkJoinHouseDto { houseCode : string }.

(** The answer of the house endpoints: [code], [owner] (a Firebase id) and
    [name] ([address] and [email], copied from the house document, are not
    carried, as in [HouseDocument]). *)
Record HouseResponseDto := mkHouseResponseDto {
  r_code : string;
  r_owner : Uid;
  r_name : string
}.

(** ** house.controller.ts *)

Module HouseController.

Section Handlers.

(** The injected [HouseUtil]. *)
Variable houseUtil : HouseUtil.

(** [POST /tasks] *)
Definition createTask (createTaskDto : CreateTaskDto) (uid : Uid) : M unit :=
  let! userDoc := userStoreService.findOneByFirebaseId uid in
  let! userDoc := deref "house" userDoc in
  match user_house userDoc with
  | Some hid =>
      let! house := houseStoreService.findOne hid in
      match house with
      | Some house =>
          let! a := selectRandomUser houseUtil (c_pool createTaskDto) in
          let! _ := taskStoreService.create (newTask createTaskDto a house.1) in
          ret tt
      | None => throw (HttpException "user is not in a house" BAD_REQUEST)
      end
  | None => throw (HttpException "user is not in a house" BAD_REQUEST)
  end.

(** [GET /tasks].  As in the task controller, the writes of
    [tasks_due.forEach(async (t) => await update(...))] are not awaited:
    those that have landed ([sched]) are seen by the reload, the others land
    after it. *)
Definition getTasksForHouse (sched : nat → bool) (uid : Uid) : M (list TaskDocument) :=
  let! userDoc := userStoreService.findOneByFirebaseId uid in
  let! userDoc := deref "house" userDoc in
  match user_house userDoc with
  | Some hid =>
      let! house := houseStoreService.findOne hid in
      match house with
      | Some house =>
          let! tasks := taskStoreService.findAll in
          let tasksForHouse := tasksOfHouse house.1 tasks in
          let! tasks_due := checkRecurrence houseUtil tasksForHouse in
          let! _ := forEach (λ t, taskStoreService.update (due_id t) (updatedTask t))
                            (pendingWrites sched true 0 tasks_due) in
          let! updated_tasks := taskStoreService.findAll in
          let! _ := forEach (λ t, taskStoreService.update (due_id t) (updatedTask t))
                            (pendingWrites sched false 0 tasks_due) in
          let updated_tasks_for_house := tasksOfHouse house.1 updated_tasks in
          ret updated_tasks_for_house
      | None => throw (HttpException "user is not in a house" BAD_REQUEST)
      end
  | None => throw (HttpException "user is not in a house" BAD_REQUEST)
  end.

(** [DELETE /tasks/:id], with [@HttpCode(204)]. *)
Definition deleteTaskFromHouse_HttpCode : Z := 204.

Definition deleteTaskFromHouse (id : string) (uid : Uid) : M string :=
  let! userDoc := userStoreService.findOneByFirebaseId uid in
  let! userDoc := deref "house" userDoc in
  match user_house userDoc with
  | Some hid =>
      let! house := houseStoreService.findOne hid in
      let! task := taskStoreService.findOne id in
      let! house := deref "owner" house in
      if bool_decide (owner house.2 = _id userDoc) then
        let! task := deref "_id" task in
        let! _ := taskStoreService.delete task.1 in
        ret "task deleted successfully"
      else
        throw (HttpException "user is not the owner of the house" BAD_REQUEST)
  | None => throw (HttpException "user is not in the house" BAD_REQUEST)
  end.

End Handlers.

Section HouseHandlers.

(** [houseUtil.generateString] of the injected [HouseUtil]. *)
Variable generateString : nat → M string.

(** [POST /] *)
Definition create (createHouseDto : CreateHouseDto) (uid : Uid) : M HouseResponseDto :=
  let! generated := generateString 8 in
  let! userDoc := userStoreService.findOneByFirebaseId uid in
  let! userDoc := deref "_id" userDoc in
  let! house := houseStoreService.create
                  (mkHouse (_id userDoc) generated (ch_name createHouseDto)) in
  let! _ := userStoreService.updateByFirebaseId uid house.1 in
  ret (mkHouseResponseDto (code house.2) uid (house_name house.2)).

(** [GET /] *)
Definition getHouse (uid : Uid) : M HouseResponseDto :=
  let! userDoc := userStoreService.findOneByFirebaseId uid in
  let! userDoc := deref "house" userDoc in
  match user_house userDoc with
  | Some hid =>
      let! house := houseStoreService.findOne hid in
      match house with
      | Some house =>
          ret (mkHouseResponseDto (code house.2) uid (house_name house.2))
      | None => throw (HttpException "user is not in a house" NO_CONTENT)
      end
  | None => throw (HttpException "user is not in a house" NO_CONTENT)
  end.

(** [PUT /] *)
Definition joinHouse (joinHouseDto : JoinHouseDto) (uid : Uid) : M HouseResponseDto :=
  let! house := houseStoreService.findOneByCode (houseCode joinHouseDto) in
  match house with
  | Some house =>
      let! _ := userStoreService.updateByFirebaseId uid house.1 in
      let! owner := userStoreService.findOne (owner house.2) in
      let! owner := deref "firebaseId" owner in
      ret (mkHouseResponseDto (code house.2) owner.1 (house_name house.2))
  | None => throw (HttpException "code is invalid" BAD_REQUEST)
  end.

End HouseHandlers.

End HouseController.

(** ** Callers and households *)

(** The caller [uid] has a user document [u] that refers to household [hid],
    and that household's document [h] is stored: what the handlers look up
    before they act. *)
Definition inHousehold (w : World) (uid : Uid) (u : UserDocument)
    (hid : ObjectId) (h : HouseDocument) : Prop :=
  users w !! uid = Some u ∧ user_house u = Some hid ∧ houses w !! hid = Some h.

(** ** Vocabulary of the properties *)

(** The task [t] with its last completion replaced and every other field as
    it was. *)
Definition withLastCompleted (c : option Z) (t : Task) : Task :=
  mkTask (house t) (name t) (description t) (pool t) (assigned t)
         (interval t) (due_date t) c.

(** The object an owner's edit hands to the store when no reassignment is
    triggered: the fields of the body and the key [assigned] with the value
    [undefined]. *)
Definition editWithoutReassignment (dto : UpdateHouseTasksDto) : TaskPartial :=
  mkTaskPartial (d_name dto) (d_description dto) (d_pool dto) (Some None) None None.

(** A task the evaluator accepts: it has a due date and an interval, and a
    pool to pick from when it has no assignee. *)
Definition wellFormed (t : Task) : Prop :=
  is_Some (due_date t) ∧ is_Some (interval t) ∧ (assigned t = None → pool t ≠ []).

(** At [now] the task's next due instant has not passed. *)
Definition notDue (now : Z) (t : Task) : Prop :=
  ∃ d i, due_date t = Some d ∧ interval t = Some i ∧ (now < d + i)%Z.

(** [t'] is [t] rolled over once at [now]: the due date advanced by one
    interval, the completion cleared, the assignee kept when there was one
    and taken from the pool otherwise, every other field as it was. *)
Definition rolledOver (now : Z) (t t' : Task) : Prop :=
  ∃ d i a,
    due_date t = Some d ∧ interval t = Some i ∧ (d + i ≤ now)%Z ∧
    (∀ u, assigned t = Some u → a = u) ∧
    (assigned t = None → a ∈ pool t) ∧
    t' = mkTask (house t) (name t) (description t) (pool t) (Some a)
                (interval t) (Some (d + i)%Z) None.

(** [due] lists, in order, one rollover for each task of [ts] that is due at
    [now], under the task's id, and nothing for the others. *)
Inductive dueList (now : Z) : list TaskDocument → list DueTask → Prop :=
  | dueList_nil : dueList now [] []
  | dueList_skip id t ts due :
      notDue now t → dueList now ts due →
      dueList now ((id, t) :: ts) due
  | dueList_roll id t p ts due :
      rolledOver now t (applyPartial p t) → dueList now ts due →
      dueList now ((id, t) :: ts) (mkDueTask id p :: due).

(** Two worlds with the same documents and clock (the random source may
    differ). *)
Definition sameStore (w w' : World) : Prop :=
  users w' = users w ∧ houses w' = houses w ∧ tasks w' = tasks w ∧ clock w' = clock w.

(** The store after the writes of a sweep. *)
Definition applyDue (due : list DueTask) (m : gmap string Task) : gmap string Task :=
  foldl (λ m d, alter (applyPartial (updatedTask d)) (due_id d) m) m due.

(** The house with join code [c], when exactly one stored house has it. *)
Definition houseWithCode (w : World) (c : string) (hid : ObjectId)
    (h : HouseDocument) : Prop :=
  houses w !! hid = Some h ∧ code h = c ∧
  ∀ hid' h', houses w !! hid' = Some h' → code h' = c → hid' = hid.

(** The user with [_id] [oid], when exactly one stored user has it. *)
Definition userWithId (w : World) (oid : ObjectId) (ouid : Uid) : Prop :=
  (∃ o, users w !! ouid = Some o ∧ _id o = oid) ∧
  ∀ uid' u', users w !! uid' = Some u' → _id u' = oid → uid' = ouid.

(** The user documents after [uid] has been moved into household [hid]. *)
Definition movedInto (uid : Uid) (hid : ObjectId) (us : gmap string UserDocument) :
    gmap string UserDocument :=
  alter (λ u, mkUser (_id u) (Some hid)) uid us.

(** A [generateString] that always answers [c] and touches nothing. *)
Definition constantGenerateString (c : string) (n : nat) : M string :=
  λ w, (Return c, w).

(** ** A household to run the handlers on

    House [H1] is owned by [A] and has members [B] and [C]; house [H2] is
    owned by [D].  Task [T1] belongs to [H1] and is assigned to [B]; task
    [T2] belongs to [H1] and has no assignee; task [T3] belongs to [H2]. *)

Module Demo.

Definition demoUsers : gmap string UserDocument :=
  <["uA" := mkUser "A" (Some "H1")]>
  (<["uB" := mkUser "B" (Some "H1")]>
  (<["uC" := mkUser "C" (Some "H1")]>
  (<["uD" := mkUser "D" (Some "H2")]> ∅))).

Definition demoHouses : gmap string HouseDocument :=
  <["H1" := mkHouse "A" "code-1" "first house"]>
  (<["H2" := mkHouse "D" "code-2" "second house"]> ∅).

Definition T1 : Task :=
  mkTask "H1" "dishes" "wash them" ["uB"; "uC"] (Some "uB")
         (Some 86400%Z) (Some 1000%Z) None.

Definition T2 : Task :=
  mkTask "H1" "bins" "take them out" ["uB"; "uC"] None
         (Some 3600%Z) (Some 2000%Z) (Some 1500%Z).

Definition T3 : Task :=
  mkTask "H2" "lawn" "mow it" ["uD"] (Some "uD")
         (Some 60%Z) (Some 1000%Z) None.

Definition demoTasks : gmap string Task :=
  <["T1" := T1]> (<["T2" := T2]> (<["T3" := T3]> ∅)).

(** The world at instant [now] with random source [r]. *)
Definition world (now : Z) (r : list nat) : World :=
  mkWorld demoUsers demoHouses demoTasks now r.

(** Mongoose's check is taken here to accept the two-character ids of this
    household and nothing else. *)
Definition demoValid (s : string) : bool := bool_decide (String.length s = 2%nat).

(** A selector in the manner of [pool[Math.floor(Math.random() * pool.length)]]:
    on the empty pool it answers [undefined] instead of failing. *)
Definition indexSelectRandomUser (pool : list Uid) : M (option Uid) :=
  λ w, let (n, r') := nextDraw (random w) in
       (Return (pool !! (n mod length pool)%nat), set_random r' w).

Definition indexUtil : TaskUtil :=
  mkTaskUtil indexSelectRandomUser spec_checkRecurrence.

(** A schedule in which the write for the first element of the array has
    landed when the reload is answered and no other has. *)
Definition firstWriteLanded (i : nat) : bool := bool_decide (i = 0%nat).

End Demo.


Import Demo.

(** * Properties *)

(** ** The handler monad *)

Lemma bind_Return {A B} (c : M A) (k : A → M B) w a w' :
  c w = (Return a, w') → bind c k w = k a w'.
Proof. intros H. unfold bind. by rewrite H. Qed.

Lemma bind_Throw {A B} (c : M A) (k : A → M B) w e w' :
  c w = (Throw e, w') → bind c k w = (Throw e, w').
Proof. intros H. unfold bind. by rewrite H. Qed.

(** ** The Assignment Selector *)

Lemma nextDraw_length r : (length (nextDraw r).2 ≤ length r)%nat.
Proof. destruct r; simpl; lia. Qed.

(** On a non-empty pool the selector answers a member of the pool and only
    consumes one draw. *)
Lemma spec_selectRandomUser_nonempty (pool : list Uid) (w : World) :
  pool ≠ [] →
  ∃ u, u ∈ pool ∧
       spec_selectRandomUser pool w =
         (Return (Some u), set_random (nextDraw (random w)).2 w).
Proof.
  intros Hne. unfold spec_selectRandomUser.
  destruct pool as [|p pool']; [done|].
  destruct (nextDraw (random w)) as [n r'] eqn:Hd. simpl snd.
  assert (Hlt : (n mod length (p :: pool') < length (p :: pool'))%nat).
  { apply Nat.mod_upper_bound. simpl. lia. }
  destruct (lookup_lt_is_Some_2 _ _ Hlt) as [u Hu].
  exists u. split.
  - eapply list_elem_of_lookup_2. exact Hu.
  - by rewrite Hu.
Qed.

Lemma spec_selectRandomUser_empty (w : World) :
  spec_selectRandomUser [] w = (Throw InvalidPoolError, w).
Proof. reflexivity. Qed.

(** ** The Recurrence Evaluator *)

Section Evaluate.

Variables (t : Task) (T I : Z).
Hypothesis Hdate : due_date t = Some T.
Hypothesis Hinterval : interval t = Some I.

Lemma evaluate_not_due (now : Z) (w : World) :
  (now < T + I)%Z →
  evaluate t now w = (Return (mkEvaluation false None), w).
Proof.
  intros Hlt. unfold evaluate. rewrite Hdate, Hinterval.
  rewrite bool_decide_eq_false_2 by lia. reflexivity.
Qed.

Lemma evaluate_due_assigned (now : Z) (w : World) (u : Uid) :
  (T + I ≤ now)%Z → assigned t = Some u →
  evaluate t now w =
    (Return (mkEvaluation true (Some (mkNewTaskState (T + I) None (Some u)))), w).
Proof.
  intros Hle Ha. unfold evaluate. rewrite Hdate, Hinterval, Ha.
  rewrite bool_decide_eq_true_2 by lia. reflexivity.
Qed.

Lemma evaluate_due_unassigned (now : Z) (w : World) :
  (T + I ≤ now)%Z → assigned t = None →
  evaluate t now w =
    (let! a := spec_selectRandomUser (pool t) in
     ret (mkEvaluation true (Some (mkNewTaskState (T + I) None a)))) w.
Proof.
  intros Hle Ha. unfold evaluate. rewrite Hdate, Hinterval, Ha.
  rewrite bool_decide_eq_true_2 by lia. reflexivity.
Qed.

End Evaluate.

(** C1. Spec §4.2 and §8, on the evaluator modelled from the spec: for a task
    with due date [T] and interval [I], evaluation at an instant before
    [T + I] answers [due = false] with no rollover and leaves the world as it
    was, and [checkRecurrence] lists nothing for it; evaluation at [T + I] or
    later answers [due = true] with a rollover whose due date is [T + I] and
    whose last completion is unset, and [checkRecurrence] lists that rollover
    under the task's id.  (The pool of a task without assignee is not empty,
    as the data model requires.) *)
Theorem C1_rollover_threshold (t : Task) (T I now : Z) (id : ObjectId) (w : World) :
  due_date t = Some T → interval t = Some I → clock w = now →
  ((now < T + I)%Z →
     evaluate t now w = (Return (mkEvaluation false None), w) ∧
     spec_checkRecurrence [(id, t)] w = (Return [], w))
  ∧
  ((T + I ≤ now)%Z → (assigned t = None → pool t ≠ []) →
     ∃ s w',
       evaluate t now w = (Return (mkEvaluation true (Some s)), w') ∧
       new_due_date s = (T + I)%Z ∧
       new_last_completed s = None ∧
       spec_checkRecurrence [(id, t)] w =
         (Return [mkDueTask id (rolloverPartial s)], w') ∧
       tasks w' = tasks w).
Proof.
  intros Hd Hi Hc. split.
  - intros Hlt.
    pose proof (evaluate_not_due t T I Hd Hi now w Hlt) as He.
    split; [exact He|].
    unfold spec_checkRecurrence, Date_now, bind at 1. rewrite Hc.
    simpl. rewrite (bind_Return _ _ _ _ _ He). reflexivity.
  - intros Hle Hpool.
    assert (∃ s w', evaluate t now w = (Return (mkEvaluation true (Some s)), w') ∧
                    new_due_date s = (T + I)%Z ∧ new_last_completed s = None ∧
                    tasks w' = tasks w) as (s & w' & He & Hs1 & Hs2 & Ht).
    { destruct (assigned t) as [u|] eqn:Ha.
      - eexists _, w. split; [by apply evaluate_due_assigned|]. done.
      - destruct (spec_selectRandomUser_nonempty (pool t) w (Hpool eq_refl))
          as (u & _ & Hsel).
        eexists _, _. split.
        + rewrite (evaluate_due_unassigned t T I Hd Hi now w Hle Ha).
          rewrite (bind_Return _ _ _ _ _ Hsel). reflexivity.
        + done. }
    exists s, w'. repeat split; try done.
    unfold spec_checkRecurrence, Date_now, bind at 1. rewrite Hc.
    simpl. rewrite (bind_Return _ _ _ _ _ He). reflexivity.
Qed.

Lemma C1_rollover_threshold_witness :
  (evaluate T1 87399 (world 87399 []) = (Return (mkEvaluation false None), world 87399 []) ∧
   spec_checkRecurrence [("T1", T1)] (world 87399 []) = (Return [], world 87399 []))
  ∧
  (∃ s w',
     evaluate T2 5600 (world 5600 [1%nat]) = (Return (mkEvaluation true (Some s)), w') ∧
     new_due_date s = 5600%Z ∧
     new_last_completed s = None ∧
     spec_checkRecurrence [("T2", T2)] (world 5600 [1%nat]) =
       (Return [mkDueTask "T2" (rolloverPartial s)], w') ∧
     tasks w' = tasks (world 5600 [1%nat])).
Proof.
  split.
  - apply (C1_rollover_threshold T1 1000 86400 87399 "T1" (world 87399 []));
      [reflexivity | reflexivity | reflexivity | lia].
  - apply (C1_rollover_threshold T2 2000 3600 5600 "T2" (world 5600 [1%nat]));
      [reflexivity | reflexivity | reflexivity | lia | discriminate].
Defined.

(** C2. Spec §4.2 and §8, on the evaluator modelled from the spec: when a task
    is due for rollover, a set [assigned] is carried over to the rollover
    unchanged and the random source is not consulted; an unset [assigned] is
    replaced by what the Assignment Selector answers for the task's pool,
    which is a member of that pool. *)
Theorem C2_rollover_assignee (t : Task) (T I now : Z) (w : World) :
  due_date t = Some T → interval t = Some I → (T + I ≤ now)%Z →
  (∀ u, assigned t = Some u →
     ∃ s, evaluate t now w = (Return (mkEvaluation true (Some s)), w) ∧
          new_assigned s = assigned t)
  ∧
  (assigned t = None → pool t ≠ [] →
     ∃ s u w',
       spec_selectRandomUser (pool t) w = (Return (Some u), w') ∧
       u ∈ pool t ∧
       evaluate t now w = (Return (mkEvaluation true (Some s)), w') ∧
       new_assigned s = Some u).
Proof.
  intros Hd Hi Hle. split.
  - intros u Ha. eexists. split.
    + by apply evaluate_due_assigned.
    + by rewrite Ha.
  - intros Ha Hne.
    destruct (spec_selectRandomUser_nonempty (pool t) w Hne) as (u & Hin & Hsel).
    eexists _, u, _. split; [exact Hsel|]. split; [exact Hin|]. split.
    + rewrite (evaluate_due_unassigned t T I Hd Hi now w Hle Ha).
      rewrite (bind_Return _ _ _ _ _ Hsel). reflexivity.
    + reflexivity.
Qed.

Lemma C2_rollover_assignee_witness :
  (∃ s, evaluate T1 90000 (world 90000 [1%nat]) =
          (Return (mkEvaluation true (Some s)), world 90000 [1%nat]) ∧
        new_assigned s = Some "uB")
  ∧
  (∃ s u w',
     spec_selectRandomUser ["uB"; "uC"] (world 90000 [1%nat]) = (Return (Some u), w') ∧
     u ∈ ["uB"; "uC"] ∧
     evaluate T2 90000 (world 90000 [1%nat]) = (Return (mkEvaluation true (Some s)), w') ∧
     new_assigned s = Some u).
Proof.
  split.
  - destruct (C2_rollover_assignee T1 1000 86400 90000 (world 90000 [1%nat])
                eq_refl eq_refl ltac:(lia)) as [Hset _].
    exact (Hset "uB" eq_refl).
  - apply (C2_rollover_assignee T2 2000 3600 90000 (world 90000 [1%nat]));
      [reflexivity | reflexivity | lia | reflexivity | discriminate].
Defined.

(** Runs the prologue shared by the handlers: the two lookups of the caller. *)
Ltac prologue H :=
  destruct H as (?Hu & ?Hh & ?Hhd);
  cbv [bind ret throw deref userStoreService.findOneByFirebaseId
       houseStoreService.findOne taskStoreService.findOne];
  repeat match goal with
         | Heq : ?x = Some _ |- context [?x] => rewrite Heq
         end;
  cbn [fmap option_fmap option_map fst snd].

(** ** Create task *)

(** The task controller refuses an empty pool before anything is selected or
    stored. *)
Lemma TasksController_createTask_empty_pool (taskUtil : TaskUtil)
    (dto : CreateTaskDto) (uid : Uid) (w : World) u hid h :
  inHousehold w uid u hid h → c_pool dto = [] →
  TasksController.createTask taskUtil dto uid w = (Throw EmptyPoolError, w).
Proof.
  intros Hin Hp. unfold TasksController.createTask. prologue Hin.
  rewrite Hp. reflexivity.
Qed.

(** The house controller's handler is the selector followed by the store's
    [create], whatever the pool is. *)
Lemma HouseController_createTask_run (houseUtil : HouseUtil)
    (dto : CreateTaskDto) (uid : Uid) (w : World) u hid h :
  inHousehold w uid u hid h →
  HouseController.createTask houseUtil dto uid w =
    (let! a := selectRandomUser houseUtil (c_pool dto) in
     let! _ := taskStoreService.create (newTask dto a hid) in
     ret tt) w.
Proof.
  intros Hin. unfold HouseController.createTask. prologue Hin. reflexivity.
Qed.

(** C10. [createTask] of house.controller.ts has no pool check: for a caller
    in a household and every pool, the empty one included, the handler runs
    [selectRandomUser] on the pool as supplied and then stores the task.  When
    the selector answers, the task is stored with that answer as assignee and
    the handler returns; the handler throws only what the selector throws. *)
Theorem C10_house_createTask_unguarded (houseUtil : HouseUtil)
    (dto : CreateTaskDto) (uid : Uid) (w : World) u hid h :
  inHousehold w uid u hid h →
  HouseController.createTask houseUtil dto uid w =
    (let! a := selectRandomUser houseUtil (c_pool dto) in
     let! _ := taskStoreService.create (newTask dto a hid) in
     ret tt) w
  ∧ (∀ a w1,
       selectRandomUser houseUtil (c_pool dto) w = (Return a, w1) →
       HouseController.createTask houseUtil dto uid w =
         (Return tt,
          set_tasks (<[fresh (dom (tasks w1)) := newTask dto a hid]> (tasks w1)) w1))
  ∧ (∀ e w1,
       HouseController.createTask houseUtil dto uid w = (Throw e, w1) →
       selectRandomUser houseUtil (c_pool dto) w = (Throw e, w1)).
Proof.
  intros Hin.
  pose proof (HouseController_createTask_run houseUtil dto uid w u hid h Hin) as Hrun.
  split; [exact Hrun|]. split.
  - intros a w1 Hsel. rewrite Hrun.
    rewrite (bind_Return _ _ _ _ _ Hsel). reflexivity.
  - intros e w1. rewrite Hrun. unfold bind at 1.
    destruct (selectRandomUser houseUtil (c_pool dto) w) as [[a|e'] w2].
    + cbv [bind taskStoreService.create ret]. discriminate.
    + intros [= -> ->]. reflexivity.
Qed.

Lemma C10_house_createTask_unguarded_witness :
  let dto := mkCreateTaskDto "windows" "clean them" [] (Some 60%Z) (Some 0%Z) in
  HouseController.createTask indexUtil dto "uB" (world 0 []) =
    (let! a := indexSelectRandomUser [] in
     let! _ := taskStoreService.create (newTask dto a "H1") in
     ret tt) (world 0 [])
  ∧ (∀ a w1,
       indexSelectRandomUser [] (world 0 []) = (Return a, w1) →
       HouseController.createTask indexUtil dto "uB" (world 0 []) =
         (Return tt,
          set_tasks (<[fresh (dom (tasks w1)) := newTask dto a "H1"]> (tasks w1)) w1))
  ∧ (∀ e w1,
       HouseController.createTask indexUtil dto "uB" (world 0 []) = (Throw e, w1) →
       indexSelectRandomUser [] (world 0 []) = (Throw e, w1)).
Proof.
  intros dto.
  apply (C10_house_createTask_unguarded indexUtil dto "uB" (world 0 [])
           (mkUser "B" (Some "H1")) "H1" (mkHouse "A" "code-1" "first house")).
  repeat split; vm_compute; reflexivity.
Defined.

(** C6. Spec §4.3 and §8 ask every create-task request with an empty pool to
    fail with [EmptyPoolError] and to store nothing.  [createTask] of
    tasks.controller.ts does so; [createTask] of house.controller.ts, bound to
    the same route, does not: for member [B] of house [H1] and the empty pool
    it hands the pool to the selector, so the request ends with the selector's
    [InvalidPoolError] under the spec's selector, and stores a task without
    assignee under a selector that answers [undefined] on the empty pool. *)
Theorem C6_empty_pool_only_tasks_controller_guards :
  let dto := mkCreateTaskDto "windows" "clean them" [] (Some 60%Z) (Some 0%Z) in
  let w := world 0 [] in
  inHousehold w "uB" (mkUser "B" (Some "H1")) "H1" (mkHouse "A" "code-1" "first house")
  ∧ TasksController.createTask specUtil dto "uB" w = (Throw EmptyPoolError, w)
  ∧ HouseController.createTask specUtil dto "uB" w = (Throw InvalidPoolError, w)
  ∧ InvalidPoolError ≠ EmptyPoolError
  ∧ (HouseController.createTask indexUtil dto "uB" w).1 = Return tt
  ∧ tasks (HouseController.createTask indexUtil dto "uB" w).2 !! "0"
      = Some (mkTask "H1" "windows" "clean them" [] None (Some 60%Z) (Some 0%Z) None)
  ∧ tasks w !! "0" = None.
Proof.
  intros dto w.
  assert (Hin : inHousehold w "uB" (mkUser "B" (Some "H1")) "H1"
                  (mkHouse "A" "code-1" "first house")).
  { repeat split; vm_compute; reflexivity. }
  split; [exact Hin|]. split.
  { by apply (TasksController_createTask_empty_pool specUtil dto "uB" w _ _ _ Hin). }
  split.
  { rewrite (HouseController_createTask_run specUtil dto "uB" w _ _ _ Hin).
    reflexivity. }
  split; [discriminate|].
  repeat split; vm_compute; reflexivity.
Qed.

(** ** Delete task *)

Lemma alter_lookup_Some {A} (f : A → A) (m : gmap string A) (i : string) (x : A) :
  m !! i = Some x → alter f i m = <[i := f x]> m.
Proof.
  intros Hx. apply map_eq. intros j.
  rewrite lookup_alter, lookup_insert.
  destruct (decide (i = j)) as [->|]; [by rewrite Hx|done].
Qed.

Section DeleteTask.

Variables (id : string) (uid : Uid) (w : World).
Variables (u : UserDocument) (hid : ObjectId) (h : HouseDocument).
Hypothesis Hin : inHousehold w uid u hid h.

(** The two controllers run the same steps. *)
Lemma HouseController_deleteTaskFromHouse_same :
  HouseController.deleteTaskFromHouse id uid = TasksController.deleteTaskFromHouse id uid.
Proof. reflexivity. Qed.

Lemma deleteTaskFromHouse_not_owner :
  owner h ≠ _id u →
  TasksController.deleteTaskFromHouse id uid w = (Throw NotOwnerError, w).
Proof using Hin.
  intros Hne. unfold TasksController.deleteTaskFromHouse.
  pose proof Hin as Hin'. prologue Hin'.
  rewrite bool_decide_eq_false_2 by done.
  destruct (tasks w !! id); reflexivity.
Qed.

Lemma deleteTaskFromHouse_owner (t : Task) :
  owner h = _id u → tasks w !! id = Some t →
  TasksController.deleteTaskFromHouse id uid w =
    (Return "task deleted successfully", set_tasks (delete id (tasks w)) w).
Proof using Hin.
  intros Heq Ht. unfold TasksController.deleteTaskFromHouse.
  pose proof Hin as Hin'. prologue Hin'.
  rewrite bool_decide_eq_true_2 by done. reflexivity.
Qed.

(** The owner's request for a task that is not stored ends in the
    [TypeError] of reading [task._id] on [null]. *)
Lemma deleteTaskFromHouse_owner_missing_task :
  owner h = _id u → tasks w !! id = None →
  TasksController.deleteTaskFromHouse id uid w = (Throw (TypeError "_id"), w).
Proof using Hin.
  intros Heq Ht. unfold TasksController.deleteTaskFromHouse.
  pose proof Hin as Hin'. prologue Hin'.
  rewrite bool_decide_eq_true_2 by done. rewrite Ht. reflexivity.
Qed.

End DeleteTask.

(** C7, as the code has it.  For a delete-task request from a caller in a
    household: if the caller is not the owner of the caller's own household,
    the request fails with [NotOwnerError] (status 400) and nothing is
    deleted; if the caller is that owner and the task is stored, the task is
    removed from the store, nothing else changes, and the response has
    status 204. *)
Theorem C7_deleteTask_owner_of_caller_household (id : string) (uid : Uid)
    (w : World) u hid h :
  inHousehold w uid u hid h →
  (owner h ≠ _id u →
     TasksController.deleteTaskFromHouse id uid w = (Throw NotOwnerError, w) ∧
     responseStatus TasksController.deleteTaskFromHouse_HttpCode
       (TasksController.deleteTaskFromHouse id uid w).1 = 400%Z)
  ∧
  (owner h = _id u → ∀ t, tasks w !! id = Some t →
     TasksController.deleteTaskFromHouse id uid w =
       (Return "task deleted successfully", set_tasks (delete id (tasks w)) w) ∧
     tasks (TasksController.deleteTaskFromHouse id uid w).2 !! id = None ∧
     responseStatus TasksController.deleteTaskFromHouse_HttpCode
       (TasksController.deleteTaskFromHouse id uid w).1 = 204%Z).
Proof.
  intros Hin. split.
  - intros Hne.
    rewrite (deleteTaskFromHouse_not_owner id uid w u hid h Hin Hne).
    split; reflexivity.
  - intros Heq t Ht.
    rewrite (deleteTaskFromHouse_owner id uid w u hid h Hin t Heq Ht).
    split; [reflexivity|]. split; [|reflexivity].
    simpl. apply lookup_delete_eq.
Qed.

Lemma C7_deleteTask_owner_of_caller_household_witness :
  (TasksController.deleteTaskFromHouse "T1" "uB" (world 0 []) =
     (Throw NotOwnerError, world 0 []) ∧
   responseStatus TasksController.deleteTaskFromHouse_HttpCode
     (TasksController.deleteTaskFromHouse "T1" "uB" (world 0 [])).1 = 400%Z)
  ∧
  (TasksController.deleteTaskFromHouse "T1" "uA" (world 0 []) =
     (Return "task deleted successfully",
      set_tasks (delete "T1" (tasks (world 0 []))) (world 0 [])) ∧
   tasks (TasksController.deleteTaskFromHouse "T1" "uA" (world 0 [])).2 !! "T1" = None ∧
   responseStatus TasksController.deleteTaskFromHouse_HttpCode
     (TasksController.deleteTaskFromHouse "T1" "uA" (world 0 [])).1 = 204%Z).
Proof.
  split.
  - apply (C7_deleteTask_owner_of_caller_household "T1" "uB" (world 0 [])
             (mkUser "B" (Some "H1")) "H1" (mkHouse "A" "code-1" "first house")).
    + repeat split; vm_compute; reflexivity.
    + simpl. discriminate.
  - apply (C7_deleteTask_owner_of_caller_household "T1" "uA" (world 0 [])
             (mkUser "A" (Some "H1")) "H1" (mkHouse "A" "code-1" "first house"))
      with (t := T1).
    + repeat split; vm_compute; reflexivity.
    + reflexivity.
    + vm_compute; reflexivity.
Defined.

(** C7 as the spec states it fails: [D] owns house [H2] and is not the owner
    of house [H1], the household that owns task [T1]; still [D]'s request to
    delete [T1] is not refused with [NotOwnerError], it deletes the task. *)
Lemma C7_counterexample_owner_of_other_household :
  let w := world 0 [] in
  ∃ u t h,
    users w !! "uD" = Some u ∧ user_house u = Some "H2" ∧
    tasks w !! "T1" = Some t ∧ houses w !! house t = Some h ∧
    owner h ≠ _id u ∧
    (TasksController.deleteTaskFromHouse "T1" "uD" w).1 ≠ Throw NotOwnerError ∧
    (TasksController.deleteTaskFromHouse "T1" "uD" w).1
      = Return "task deleted successfully" ∧
    tasks (TasksController.deleteTaskFromHouse "T1" "uD" w).2 !! "T1" = None.
Proof.
  intros w.
  exists (mkUser "D" (Some "H2")), T1, (mkHouse "A" "code-1" "first house").
  repeat split; try (vm_compute; reflexivity); vm_compute; discriminate.
Qed.

(** A request by the owner for a task that is not stored does not answer
    [TaskNotFoundError]: it ends in a [TypeError], a status 500. *)
Example deleteTaskFromHouse_missing_task_500 :
  TasksController.deleteTaskFromHouse "T9" "uA" (world 0 []) =
    (Throw (TypeError "_id"), world 0 []) ∧
  responseStatus TasksController.deleteTaskFromHouse_HttpCode
    (TasksController.deleteTaskFromHouse "T9" "uA" (world 0 [])).1 = 500%Z.
Proof.
  rewrite (deleteTaskFromHouse_owner_missing_task "T9" "uA" (world 0 [])
             (mkUser "A" (Some "H1")) "H1" (mkHouse "A" "code-1" "first house"));
    [split; reflexivity | repeat split; vm_compute; reflexivity
     | reflexivity | vm_compute; reflexivity].
Qed.

(** C9. Delete-task never looks at the household of the task: for a caller
    who owns the caller's own household and any stored task, of whichever
    household, both controllers delete the task and return. *)
Theorem C9_deleteTask_ignores_task_household (id : string) (uid : Uid)
    (w : World) u hid h t :
  inHousehold w uid u hid h → owner h = _id u → tasks w !! id = Some t →
  TasksController.deleteTaskFromHouse id uid w =
    (Return "task deleted successfully", set_tasks (delete id (tasks w)) w)
  ∧ HouseController.deleteTaskFromHouse id uid w =
    (Return "task deleted successfully", set_tasks (delete id (tasks w)) w).
Proof.
  intros Hin Heq Ht.
  pose proof (deleteTaskFromHouse_owner id uid w u hid h Hin t Heq Ht) as Hdel.
  split; [exact Hdel|].
  pose proof (HouseController_deleteTaskFromHouse_same id uid) as Hsame.
  by rewrite <- Hsame in Hdel.
Qed.

Lemma C9_deleteTask_ignores_task_household_witness :
  house T3 ≠ "H1"
  ∧ TasksController.deleteTaskFromHouse "T3" "uA" (world 0 []) =
      (Return "task deleted successfully",
       set_tasks (delete "T3" (tasks (world 0 []))) (world 0 []))
  ∧ HouseController.deleteTaskFromHouse "T3" "uA" (world 0 []) =
      (Return "task deleted successfully",
       set_tasks (delete "T3" (tasks (world 0 []))) (world 0 [])).
Proof.
  split; [simpl; discriminate|].
  apply (C9_deleteTask_ignores_task_household "T3" "uA" (world 0 [])
           (mkUser "A" (Some "H1")) "H1" (mkHouse "A" "code-1" "first house") T3).
  - repeat split; vm_compute; reflexivity.
  - reflexivity.
  - vm_compute; reflexivity.
Defined.

(** ** Complete task *)

(** C8. For a complete/uncomplete request on a stored task: when the caller
    is not the task's assigned member the request fails with
    [NotAssignedError] and the world is as before; otherwise the request
    returns and the stored task differs from the old one in [last_completed]
    only, which is the current instant when completing and unset when
    uncompleting; every other task is as it was. *)
Theorem C8_markTaskAsComplete (isValidObjectId : string → bool)
    (dto : CompleteTaskDto) (id : string) (uid : Uid) (w : World) (t : Task) :
  isValidObjectId id = true → tasks w !! id = Some t →
  (assigned t ≠ Some uid →
     TasksController.markTaskAsComplete isValidObjectId dto id uid w =
       (Throw NotAssignedError, w))
  ∧
  (assigned t = Some uid →
     TasksController.markTaskAsComplete isValidObjectId dto id uid w =
       (Return tt,
        set_tasks
          (<[id := withLastCompleted
                     (if isComplete dto then Some (clock w) else None) t]>
             (tasks w)) w)).
Proof.
  intros Hv Ht. unfold TasksController.markTaskAsComplete.
  rewrite Hv. cbn [negb].
  cbv [bind ret throw taskStoreService.findOne]. rewrite Ht.
  cbn [fmap option_fmap option_map fst snd].
  split.
  - intros Hne. rewrite bool_decide_eq_false_2 by done. reflexivity.
  - intros Ha. rewrite bool_decide_eq_true_2 by done. cbn [negb].
    destruct (isComplete dto);
      cbv [Date_now taskStoreService.update];
      rewrite (alter_lookup_Some _ _ _ _ Ht); reflexivity.
Qed.

Lemma C8_markTaskAsComplete_witness :
  TasksController.markTaskAsComplete demoValid (mkCompleteTaskDto true)
      "T1" "uC" (world 5 []) = (Throw NotAssignedError, world 5 [])
  ∧ TasksController.markTaskAsComplete demoValid (mkCompleteTaskDto true)
      "T1" "uB" (world 5 []) =
      (Return tt,
       set_tasks (<["T1" := withLastCompleted (Some 5%Z) T1]> (tasks (world 5 [])))
                 (world 5 []))
  ∧ TasksController.markTaskAsComplete demoValid (mkCompleteTaskDto false)
      "T3" "uD" (world 5 []) =
      (Return tt,
       set_tasks (<["T3" := withLastCompleted None T3]> (tasks (world 5 [])))
                 (world 5 [])).
Proof.
  split; [|split].
  - apply (C8_markTaskAsComplete demoValid (mkCompleteTaskDto true) "T1" "uC"
             (world 5 []) T1);
      [reflexivity | vm_compute; reflexivity | simpl; discriminate].
  - apply (C8_markTaskAsComplete demoValid (mkCompleteTaskDto true) "T1" "uB"
             (world 5 []) T1);
      [reflexivity | vm_compute; reflexivity | reflexivity].
  - apply (C8_markTaskAsComplete demoValid (mkCompleteTaskDto false) "T3" "uD"
             (world 5 []) T3);
      [reflexivity | vm_compute; reflexivity | reflexivity].
Defined.

(** ** Modify task *)

Lemma includes_false (pool : list Uid) (x : option Uid) :
  (∀ a, x = Some a → a ∉ pool) → includes pool x = false.
Proof.
  intros H. destruct x as [a|]; [|done]. simpl.
  apply bool_decide_eq_false_2. by apply H.
Qed.

Section ModifyTask.

Variable isValidObjectId : string → bool.
Variable taskUtil : TaskUtil.
Variables (id : string) (uid : Uid) (dto : UpdateHouseTasksDto) (w : World).
Variables (u : UserDocument) (hid : ObjectId) (h : HouseDocument) (t : Task).
Hypothesis Hin : inHousehold w uid u hid h.
Hypothesis Howner : owner h = _id u.
Hypothesis Hvalid : isValidObjectId id = true.
Hypothesis Htask : tasks w !! id = Some t.

(** An edit without pool, or with a pool that includes the assignee, writes
    [assigned: undefined]. *)
Lemma modifyTask_no_reassignment :
  (d_pool dto = None ∨ ∃ p, d_pool dto = Some p ∧ includes p (assigned t) = true) →
  TasksController.modifyTask isValidObjectId taskUtil id uid dto w =
    (Return tt,
     set_tasks (<[id := applyPartial (editWithoutReassignment dto) t]> (tasks w)) w).
Proof using Hin Howner Hvalid Htask.
  intros Hp. unfold TasksController.modifyTask.
  pose proof Hin as Hin'. prologue Hin'.
  rewrite Hvalid. cbn [negb]. rewrite Htask.
  cbn [fmap option_fmap option_map fst snd].
  rewrite bool_decide_eq_true_2 by done. cbn [negb].
  unfold editWithoutReassignment.
  destruct Hp as [Hp|(p & Hp & Hinc)]; rewrite Hp; [|rewrite Hinc; cbn [negb]];
    cbv [taskStoreService.update];
    rewrite (alter_lookup_Some _ _ _ _ Htask); reflexivity.
Qed.

(** An edit with a pool that does not include the assignee writes what the
    selector answers for the new pool. *)
Lemma modifyTask_reassignment (p : list Uid) (a : option Uid) (w1 : World) :
  d_pool dto = Some p → includes p (assigned t) = false →
  selectRandomUser taskUtil p w = (Return a, w1) →
  TasksController.modifyTask isValidObjectId taskUtil id uid dto w =
    (Return tt,
     set_tasks
       (alter (applyPartial
                 (mkTaskPartial (d_name dto) (d_description dto) (Some p)
                                (Some a) None None)) id (tasks w1)) w1).
Proof using Hin Howner Hvalid Htask.
  intros Hp Hinc Hsel. unfold TasksController.modifyTask.
  pose proof Hin as Hin'. prologue Hin'.
  rewrite Hvalid. cbn [negb]. rewrite Htask.
  cbn [fmap option_fmap option_map fst snd].
  rewrite bool_decide_eq_true_2 by done. cbn [negb].
  rewrite ?Hp, Hinc. cbn [negb]. rewrite Hsel.
  reflexivity.
Qed.

End ModifyTask.



(** C4. For an owner's edit of a stored task that supplies a non-empty pool
    which does not contain the task's assignee, the Assignment Selector is
    run on the new pool, the edit returns, and the stored task has the
    selector's answer as assignee, a member of the new pool (and the new
    pool as pool). *)
Theorem C4_modifyTask_reassigns_from_new_pool (isValidObjectId : string → bool)
    (id : string) (uid : Uid) (dto : UpdateHouseTasksDto) (w : World)
    u hid h (t : Task) (newPool : list Uid) :
  inHousehold w uid u hid h → owner h = _id u →
  isValidObjectId id = true → tasks w !! id = Some t →
  d_pool dto = Some newPool → newPool ≠ [] →
  (∀ a, assigned t = Some a → a ∉ newPool) →
  ∃ a w1 t',
    spec_selectRandomUser newPool w = (Return (Some a), w1) ∧
    a ∈ newPool ∧
    (TasksController.modifyTask isValidObjectId specUtil id uid dto w).1 = Return tt ∧
    tasks (TasksController.modifyTask isValidObjectId specUtil id uid dto w).2 !! id
      = Some t' ∧
    assigned t' = Some a ∧ pool t' = newPool.
Proof.
  intros Hin Ho Hv Ht Hp Hne Hnot.
  destruct (spec_selectRandomUser_nonempty newPool w Hne) as (a & Ha & Hsel).
  pose proof (includes_false newPool (assigned t) Hnot) as Hinc.
  rewrite (modifyTask_reassignment isValidObjectId specUtil id uid dto w
             u hid h t Hin Ho Hv Ht newPool (Some a) _ Hp Hinc Hsel).
  eexists a, _, _. split; [exact Hsel|]. split; [exact Ha|].
  split; [reflexivity|]. cbn [fst snd tasks set_tasks set_random].
  rewrite lookup_alter, decide_True by done. rewrite Ht. cbn.
  repeat split; reflexivity.
Qed.

Lemma C4_modifyTask_reassigns_from_new_pool_witness :
  let dto := mkUpdateHouseTasksDto None None (Some ["uA"; "uC"]) in
  ∃ a w1 t',
    spec_selectRandomUser ["uA"; "uC"] (world 0 [3%nat]) = (Return (Some a), w1) ∧
    a ∈ ["uA"; "uC"] ∧
    (TasksController.modifyTask demoValid specUtil "T1" "uA" dto (world 0 [3%nat])).1
      = Return tt ∧
    tasks (TasksController.modifyTask demoValid specUtil "T1" "uA" dto
             (world 0 [3%nat])).2 !! "T1" = Some t' ∧
    assigned t' = Some a ∧ pool t' = ["uA"; "uC"].
Proof.
  intros dto.
  apply (C4_modifyTask_reassigns_from_new_pool demoValid "T1" "uA" dto
           (world 0 [3%nat]) (mkUser "A" (Some "H1")) "H1"
           (mkHouse "A" "code-1" "first house") T1 ["uA"; "uC"]).
  - repeat split; vm_compute; reflexivity.
  - reflexivity.
  - reflexivity.
  - vm_compute; reflexivity.
  - reflexivity.
  - discriminate.
  - intros a [= <-]. rewrite !elem_of_cons, elem_of_nil.
    intros [?|[?|?]]; [discriminate | discriminate | contradiction].
Defined.

(** ** The recurrence sweep *)

Lemma sameStore_refl w : sameStore w w.
Proof. by repeat split. Qed.

Lemma sameStore_trans w1 w2 w3 : sameStore w1 w2 → sameStore w2 w3 → sameStore w1 w3.
Proof.
  intros (?&?&?&?) (?&?&?&?). repeat split; congruence.
Qed.

Lemma spec_selectRandomUser_sameStore pool w o w' :
  spec_selectRandomUser pool w = (o, w') → sameStore w w'.
Proof.
  unfold spec_selectRandomUser. destruct pool as [|p pool'].
  - intros [= _ <-]. apply sameStore_refl.
  - destruct (nextDraw (random w)) as [n r']. intros [= _ <-].
    by repeat split.
Qed.

(** What one evaluation answers. *)
Lemma evaluate_cases (t : Task) (now : Z) (w : World) o w' :
  evaluate t now w = (o, w') →
  sameStore w w' ∧
  match o with
  | Return e =>
      match rollover e with
      | None => notDue now t
      | Some s => rolledOver now t (applyPartial (rolloverPartial s) t)
      end
  | Throw _ => ¬ wellFormed t
  end.
Proof.
  unfold evaluate. cbv [throw].
  destruct (due_date t) as [d|] eqn:Hd; cycle 1.
  { intros [= <- <-]. split; [apply sameStore_refl|].
    intros ([? ?] & _). congruence. }
  destruct (interval t) as [i|] eqn:Hi; cycle 1.
  { intros [= <- <-]. split; [apply sameStore_refl|].
    intros (_ & [? ?] & _). congruence. }
  case_bool_decide as Hle; cycle 1.
  { intros [= <- <-]. split; [apply sameStore_refl|].
    simpl. exists d, i. repeat split; [done..|lia]. }
  destruct (assigned t) as [u|] eqn:Ha.
  - intros [= <- <-]. split; [apply sameStore_refl|]. simpl.
    exists d, i, u.
    split_and!; [done | done | done | congruence | congruence |].
    unfold applyPartial. simpl. by rewrite Hi.
  - destruct (pool t) as [|p pool'] eqn:Hp.
    + intros [= <- <-]. split; [apply sameStore_refl|].
      intros (_ & _ & Hne). by apply Hne.
    + destruct (spec_selectRandomUser_nonempty (p :: pool') w) as (u & Hu & Hsel);
        [done|].
      rewrite (bind_Return _ _ _ _ _ Hsel). intros [= <- <-].
      split; [by repeat split|]. simpl.
      exists d, i, u.
      split_and!; [done | done | done | congruence | by rewrite Hp |].
      unfold applyPartial. simpl. by rewrite Hi, Hp.
Qed.

Lemma evaluate_wellFormed (t : Task) (now : Z) (w : World) :
  wellFormed t → ∃ e w', evaluate t now w = (Return e, w').
Proof.
  intros Hwf. destruct (evaluate t now w) as [[e|x] w'] eqn:He; [by eauto|].
  by destruct (evaluate_cases _ _ _ _ _ He) as [_ Hn].
Qed.

Lemma checkRecurrenceAt_cases (now : Z) (ts : list TaskDocument) (w : World) o w' :
  checkRecurrenceAt now ts w = (o, w') →
  sameStore w w' ∧
  match o with
  | Return due => dueList now ts due
  | Throw _ => ∃ d, d ∈ ts ∧ ¬ wellFormed d.2
  end.
Proof.
  revert w o w'. induction ts as [|[id t] ts IH]; intros w o w'.
  - intros [= <- <-]. split; [apply sameStore_refl|constructor].
  - cbn [checkRecurrenceAt]. unfold bind at 1.
    destruct (evaluate t now w) as [[e|x] w1] eqn:He;
      destruct (evaluate_cases _ _ _ _ _ He) as [Hs1 Hcase].
    + unfold bind at 1.
      destruct (checkRecurrenceAt now ts w1) as [[rest|x] w2] eqn:Hr;
        destruct (IH _ _ _ Hr) as [Hs2 Hrest].
      * intros [= <- <-]. split; [by eapply sameStore_trans|].
        destruct (rollover e) as [s|]; by constructor.
      * intros [= <- <-]. split; [by eapply sameStore_trans|].
        destruct Hrest as (d & Hd & Hn). exists d. split; [by right|done].
    + intros [= <- <-]. split; [done|].
      exists (id, t). split; [by left|done].
Qed.

Lemma checkRecurrenceAt_wellFormed (now : Z) (ts : list TaskDocument) (w : World) :
  (∀ d, d ∈ ts → wellFormed d.2) →
  ∃ due w', checkRecurrenceAt now ts w = (Return due, w').
Proof.
  intros Hwf.
  destruct (checkRecurrenceAt now ts w) as [[due|x] w'] eqn:Hc; [by eauto|].
  destruct (checkRecurrenceAt_cases _ _ _ _ _ Hc) as [_ (d & Hd & Hn)].
  destruct Hn. by apply Hwf.
Qed.

Lemma forEach_update (due : list DueTask) (w : World) :
  forEach (λ d, taskStoreService.update (due_id d) (updatedTask d)) due w =
    (Return tt, set_tasks (applyDue due (tasks w)) w).
Proof.
  revert w. induction due as [|d due IH]; intros w.
  - by destruct w.
  - cbn [forEach]. unfold bind, taskStoreService.update at 1.
    rewrite IH. reflexivity.
Qed.

Lemma applyDue_dom (due : list DueTask) (m : gmap string Task) :
  dom (applyDue due m) = dom m.
Proof.
  revert m. induction due as [|d due IH]; intros m; [done|].
  unfold applyDue in *. cbn [foldl]. rewrite IH. apply dom_alter_L.
Qed.

Lemma rolledOver_house now t t' : rolledOver now t t' → house t' = house t.
Proof. by intros (d & i & a & _ & _ & _ & _ & _ & ->). Qed.

(** The writes of a sweep touch the listed tasks only, each at most once. *)
Lemma applyDue_lookup (now : Z) (ts : list TaskDocument) (due : list DueTask) :
  dueList now ts due → NoDup ts.*1 →
  ∀ m : gmap string Task,
    (∀ id, id ∉ ts.*1 → applyDue due m !! id = m !! id) ∧
    (∀ id t, (id, t) ∈ ts → m !! id = Some t →
       ∃ t', applyDue due m !! id = Some t' ∧
             ((t' = t ∧ notDue now t) ∨ rolledOver now t t')).
Proof.
  induction 1 as [|id0 t0 ts due Hnd _ IH|id0 t0 p ts due Hro _ IH];
    intros Hdup m.
  - split; [done|]. intros id t Hin. by apply elem_of_nil in Hin.
  - apply NoDup_cons in Hdup as [Hfresh Hdup].
    destruct (IH Hdup m) as [IH1 IH2]. split.
    + intros id Hid. apply IH1. intros Hin. apply Hid. by right.
    + intros id t [[= -> ->]|Hin]%elem_of_cons Hm.
      * exists t0. split; [|by left]. by rewrite IH1.
      * by apply IH2.
  - apply NoDup_cons in Hdup as [Hfresh Hdup]. cbn [fmap list_fmap fst] in Hfresh.
    change (applyDue (mkDueTask id0 p :: due) m)
      with (applyDue due (alter (applyPartial p) id0 m)).
    destruct (IH Hdup (alter (applyPartial p) id0 m)) as [IH1 IH2]. split.
    + intros id Hid. rewrite IH1 by (intros Hin; apply Hid; by right).
      apply lookup_alter_ne. intros ->. apply Hid. by left.
    + intros id t [[= -> ->]|Hin]%elem_of_cons Hm.
      * exists (applyPartial p t0). split; [|by right].
        rewrite IH1 by done. by rewrite lookup_alter_eq, Hm.
      * apply IH2; [done|]. rewrite lookup_alter_ne; [done|].
        intros ->. apply Hfresh.
        apply list_elem_of_fmap. by exists (id, t).
Qed.

Lemma NoDup_fst_filter {A} (P : string * A → Prop) `{∀ x, Decision (P x)}
    (l : list (string * A)) :
  NoDup l.*1 → NoDup (filter P l).*1.
Proof.
  induction l as [|x l IH]; [done|]. cbn [fmap list_fmap].
  intros [Hx Hl]%NoDup_cons. rewrite filter_cons.
  destruct (decide (P x)); [|by apply IH].
  cbn [fmap list_fmap]. apply NoDup_cons. split; [|by apply IH].
  intros (y & Hy1 & Hy2)%list_elem_of_fmap. apply Hx.
  apply list_elem_of_fmap. exists y. split; [done|].
  by apply list_elem_of_filter in Hy2 as [_ ?].
Qed.

Lemma elem_of_tasksOfHouse (hid : ObjectId) (m : gmap string Task) id t :
  (id, t) ∈ tasksOfHouse hid (map_to_list m) ↔ m !! id = Some t ∧ house t = hid.
Proof.
  unfold tasksOfHouse. rewrite list_elem_of_filter, elem_of_map_to_list.
  simpl. tauto.
Qed.

Lemma not_elem_of_tasksOfHouse (hid : ObjectId) (m : gmap string Task) id t :
  m !! id = Some t → house t ≠ hid → id ∉ (tasksOfHouse hid (map_to_list m)).*1.
Proof.
  intros Hm Hne ([id' t'] & -> & Hin)%list_elem_of_fmap.
  apply elem_of_tasksOfHouse in Hin as [Hm' Hh]. simpl in Hm.
  congruence.
Qed.

(** *** Writes that are not awaited *)

Lemma pendingWrites_elem (sched : nat → bool) (b : bool) (i : nat)
    (l : list DueTask) (d : DueTask) :
  d ∈ pendingWrites sched b i l → d ∈ l.
Proof.
  revert i. induction l as [|x l IH]; intros i; cbn [pendingWrites]; [done|].
  destruct (eqb (sched i) b).
  - intros [->|Hd]%elem_of_cons; [by left|]. right. by eapply IH.
  - intros Hd. right. by eapply IH.
Qed.

Lemma pendingWrites_ids (sched : nat → bool) (b : bool) (i : nat)
    (l : list DueTask) (id : ObjectId) :
  id ∉ due_id <$> l → id ∉ due_id <$> pendingWrites sched b i l.
Proof.
  intros Hid (d & -> & Hd)%list_elem_of_fmap. apply Hid.
  apply list_elem_of_fmap. exists d. split; [done|]. by eapply pendingWrites_elem.
Qed.

Lemma pendingWrites_all_landed (sched : nat → bool) (i : nat) (l : list DueTask) :
  (∀ j, sched j = true) →
  pendingWrites sched true i l = l ∧ pendingWrites sched false i l = [].
Proof.
  intros Hall. revert i. induction l as [|x l IH]; intros i; [done|].
  cbn [pendingWrites]. rewrite Hall. cbn [eqb].
  destruct (IH (S i)) as [-> ->]. done.
Qed.

Lemma applyDue_cons (d : DueTask) (due : list DueTask) (m : gmap string Task) :
  applyDue (d :: due) m = applyDue due (alter (applyPartial (updatedTask d)) (due_id d) m).
Proof. reflexivity. Qed.

Lemma applyDue_notin (due : list DueTask) (m : gmap string Task) (id : ObjectId) :
  id ∉ due_id <$> due → applyDue due m !! id = m !! id.
Proof.
  revert m. induction due as [|d due IH]; intros m Hid; [done|].
  rewrite applyDue_cons, IH.
  - apply lookup_alter_ne. intros Heq. apply Hid. rewrite <- Heq. by left.
  - intros Hd. apply Hid. by right.
Qed.

(** What a sweep leaves under an id depends on what was stored under that
    id only. *)
Lemma applyDue_lookup_ext (due : list DueTask) (m m' : gmap string Task)
    (id : ObjectId) :
  m !! id = m' !! id → applyDue due m !! id = applyDue due m' !! id.
Proof.
  revert m m'. induction due as [|d due IH]; intros m m' Heq; [done|].
  rewrite !applyDue_cons. apply IH. rewrite !lookup_alter.
  case_decide as Hk; [subst id|]; by rewrite Heq.
Qed.

(** Writes to different tasks commute: landing some writes first and the
    others later ends in the store that the writes in array order give. *)
Lemma applyDue_split (sched : nat → bool) (i : nat) (due : list DueTask)
    (m : gmap string Task) :
  NoDup (due_id <$> due) →
  applyDue (pendingWrites sched false i due)
           (applyDue (pendingWrites sched true i due) m) = applyDue due m.
Proof.
  intros Hdup. apply map_eq. intros id.
  revert i m. induction due as [|d due IH]; intros i m; [done|].
  cbn [fmap list_fmap] in Hdup. apply NoDup_cons in Hdup as [Hfresh Hdup].
  cbn [pendingWrites]. destruct (sched i); cbn [eqb].
  - rewrite !applyDue_cons. by apply IH.
  - rewrite !applyDue_cons.
    destruct (decide (id = due_id d)) as [->|Hne].
    + rewrite !applyDue_notin by (done || by apply pendingWrites_ids).
      rewrite !lookup_alter_eq.
      by rewrite applyDue_notin by by apply pendingWrites_ids.
    + rewrite (applyDue_lookup_ext _ _ (applyDue (pendingWrites sched true (S i) due) m))
        by by rewrite lookup_alter_ne.
      rewrite IH by done. apply applyDue_lookup_ext. by rewrite lookup_alter_ne.
Qed.

(** Under each id, the reload sees what was stored before the sweep or what
    is stored after it. *)
Lemma applyDue_landed_lookup (sched : nat → bool) (i : nat) (due : list DueTask)
    (m : gmap string Task) (id : ObjectId) :
  NoDup (due_id <$> due) →
  applyDue (pendingWrites sched true i due) m !! id = m !! id
  ∨ applyDue (pendingWrites sched true i due) m !! id = applyDue due m !! id.
Proof.
  intros Hdup. destruct (decide (id ∈ due_id <$> due)) as [Hin|Hnin]; cycle 1.
  { left. by apply applyDue_notin, pendingWrites_ids. }
  revert i m Hin. induction due as [|d due IH]; intros i m Hin.
  { by apply elem_of_nil in Hin. }
  cbn [fmap list_fmap] in Hdup, Hin. apply NoDup_cons in Hdup as [Hfresh Hdup].
  cbn [pendingWrites]. rewrite (applyDue_cons d due).
  destruct (decide (id = due_id d)) as [->|Hne].
  - destruct (sched i); cbn [eqb].
    + right. rewrite applyDue_cons.
      rewrite !applyDue_notin by (done || by apply pendingWrites_ids). done.
    + left. by apply applyDue_notin, pendingWrites_ids.
  - apply elem_of_cons in Hin as [?|Hin]; [done|].
    destruct (sched i); cbn [eqb].
    + rewrite applyDue_cons.
      destruct (IH Hdup (S i) (alter (applyPartial (updatedTask d)) (due_id d) m) Hin)
        as [Hl|Hr]; [left|by right].
      rewrite Hl. by apply lookup_alter_ne.
    + destruct (IH Hdup (S i) m Hin) as [Hl|Hr]; [by left|right].
      rewrite Hr. apply applyDue_lookup_ext. by rewrite lookup_alter_ne.
Qed.

Lemma dueList_ids_NoDup (now : Z) (ts : list TaskDocument) (due : list DueTask) :
  dueList now ts due → NoDup ts.*1 → NoDup (due_id <$> due).
Proof.
  intros Hdue Hdup. eapply sublist_NoDup; [exact Hdup|]. clear Hdup.
  induction Hdue as [|id t ts due _ _ IH|id t p ts due _ _ IH]; cbn [fmap list_fmap].
  - constructor.
  - by apply sublist_cons.
  - by apply sublist_skip.
Qed.

(** The handler, once the caller's household is found. *)
Lemma getTasksForHouse_run (sched : nat → bool) (uid : Uid) (w : World) u hid h :
  inHousehold w uid u hid h →
  TasksController.getTasksForHouse specUtil sched uid w =
    match checkRecurrenceAt (clock w) (tasksOfHouse hid (map_to_list (tasks w))) w with
    | (Return due, w1) =>
        let seen := applyDue (pendingWrites sched true 0 due) (tasks w1) in
        (Return (tasksOfHouse hid (map_to_list seen)),
         set_tasks (applyDue (pendingWrites sched false 0 due) seen) w1)
    | (Throw e, w1) => (Throw e, w1)
    end.
Proof.
  intros Hin. unfold TasksController.getTasksForHouse. prologue Hin.
  cbv [taskStoreService.findAll checkRecurrence specUtil spec_checkRecurrence
       Date_now bind ret].
  destruct (checkRecurrenceAt _ _ w) as [[due|e] w1]; [|done].
  rewrite !forEach_update. reflexivity.
Qed.

Lemma HouseController_getTasksForHouse_same (houseUtil : HouseUtil)
    (sched : nat → bool) (uid : Uid) :
  HouseController.getTasksForHouse houseUtil sched uid =
  TasksController.getTasksForHouse houseUtil sched uid.
Proof. reflexivity. Qed.

(** C5, as the code has it.  For a list-tasks request by a caller in
    household [hid], on either controller and whichever of the writes have
    landed when the reload is answered: rollovers are evaluated and written
    for the tasks of [hid] only, so the tasks of other households are stored
    afterwards exactly as before, and user and house documents are
    untouched.  When the request returns, every task of the household is
    stored afterwards either as it was (not due) or rolled over once (due),
    and no task is added or removed.  The answer holds the tasks of the
    household and no others, each once and each either as it was stored
    before the request or as it is stored after the writes; it is the reload
    after the writes when all of them have landed by then.  When the
    evaluator throws, nothing has been written.  When the household's tasks
    are well formed the request returns. *)
Theorem C5_getTasksForHouse_sweeps_own_household (sched : nat → bool) (uid : Uid)
    (w : World) u hid h :
  inHousehold w uid u hid h →
  let r := TasksController.getTasksForHouse specUtil sched uid w in
  HouseController.getTasksForHouse specUtil sched uid w = r
  ∧ (∀ id t, tasks w !! id = Some t → house t ≠ hid → tasks r.2 !! id = Some t)
  ∧ users r.2 = users w ∧ houses r.2 = houses w
  ∧ (∀ l, r.1 = Return l →
       (∀ id t, tasks w !! id = Some t → house t = hid →
            ∃ t', tasks r.2 !! id = Some t' ∧ house t' = hid ∧
                  ((t' = t ∧ notDue (clock w) t) ∨ rolledOver (clock w) t t'))
       ∧ dom (tasks r.2) = dom (tasks w)
       ∧ (∀ id t', (id, t') ∈ l →
            house t' = hid ∧
            ∃ t, tasks w !! id = Some t ∧ house t = hid ∧
                 (t' = t ∨ tasks r.2 !! id = Some t'))
       ∧ (∀ id t, tasks w !! id = Some t → house t = hid →
            ∃ t', (id, t') ∈ l ∧ (t' = t ∨ tasks r.2 !! id = Some t'))
       ∧ NoDup l.*1
       ∧ ((∀ i, sched i = true) → l = tasksOfHouse hid (map_to_list (tasks r.2))))
  ∧ (∀ e, r.1 = Throw e → tasks r.2 = tasks w)
  ∧ ((∀ id t, tasks w !! id = Some t → house t = hid → wellFormed t) →
       ∃ l, r.1 = Return l).
Proof.
  intros Hin r. subst r.
  split; [reflexivity|].
  rewrite (getTasksForHouse_run sched uid w u hid h Hin).
  set (ts := tasksOfHouse hid (map_to_list (tasks w))).
  assert (Hdup : NoDup ts.*1).
  { apply NoDup_fst_filter, NoDup_fst_map_to_list. }
  destruct (checkRecurrenceAt (clock w) ts w) as [[due|e] w1] eqn:Hc;
    destruct (checkRecurrenceAt_cases _ _ _ _ _ Hc) as [(Hsu & Hsh & Hst & Hsc) Hcase];
    cbn zeta; cbn [fst snd tasks users houses set_tasks].
  - pose proof (dueList_ids_NoDup _ _ _ Hcase Hdup) as Hids.
    rewrite (applyDue_split sched 0 due (tasks w1) Hids).
    destruct (applyDue_lookup _ _ _ Hcase Hdup (tasks w1)) as [Hother Hown].
    rewrite Hst in *.
    assert (Hfinal : ∀ id t, tasks w !! id = Some t → house t = hid →
              ∃ t', applyDue due (tasks w) !! id = Some t' ∧ house t' = hid ∧
                    ((t' = t ∧ notDue (clock w) t) ∨ rolledOver (clock w) t t')).
    { intros id t Hm Hh.
      destruct (Hown id t) as (t' & Hm' & Hrel); [|done|].
      { by apply elem_of_tasksOfHouse. }
      exists t'. split; [done|]. split; [|done].
      destruct Hrel as [[-> _]|Hro]; [done|].
      by rewrite (rolledOver_house _ _ _ Hro). }
    assert (Hframe : ∀ id t, tasks w !! id = Some t → house t ≠ hid →
              applyDue due (tasks w) !! id = Some t).
    { intros id t Hm Hne. rewrite Hother; [done|].
      by eapply not_elem_of_tasksOfHouse. }
    assert (Hseen : ∀ id,
              applyDue (pendingWrites sched true 0 due) (tasks w) !! id = tasks w !! id
              ∨ applyDue (pendingWrites sched true 0 due) (tasks w) !! id
                = applyDue due (tasks w) !! id).
    { intros id. by apply applyDue_landed_lookup. }
    split_and!; try done.
    intros l [= <-]. split_and!.
    + exact Hfinal.
    + apply applyDue_dom.
    + intros id t' [Hm' Hh']%elem_of_tasksOfHouse. split; [done|].
      destruct (Hseen id) as [Hs|Hs]; rewrite Hs in Hm'.
      * exists t'. split_and!; [done | done | by left].
      * assert (is_Some (tasks w !! id)) as [t Ht].
        { apply elem_of_dom. rewrite <- (applyDue_dom due). apply elem_of_dom. eauto. }
        exists t. split; [done|].
        destruct (decide (house t = hid)) as [Hh|Hh]; [by split; [|right]|].
        rewrite (Hframe id t Ht Hh) in Hm'. congruence.
    + intros id t Hm Hh. destruct (Hseen id) as [Hs|Hs].
      * exists t. split; [|by left]. apply elem_of_tasksOfHouse.
        split; [by rewrite Hs|done].
      * destruct (Hfinal id t Hm Hh) as (t' & Hm' & Hh' & _).
        exists t'. split; [|by right]. apply elem_of_tasksOfHouse.
        split; [by rewrite Hs|done].
    + apply NoDup_fst_filter, NoDup_fst_map_to_list.
    + intros Hall. by destruct (pendingWrites_all_landed sched 0 due Hall) as [-> _].
    + intros _. by eexists.
  - split_and!.
    + intros id t Hm _. by rewrite Hst.
    + done.
    + done.
    + intros l [=].
    + intros e' _. done.
    + intros Hwf. destruct Hcase as ([id t] & Hd & Hn). destruct Hn.
      apply elem_of_tasksOfHouse in Hd as [Hm Hh]. by eapply Hwf.
Qed.

Lemma C5_getTasksForHouse_sweeps_own_household_witness :
  let w := world 90000 [1%nat] in
  let r := TasksController.getTasksForHouse specUtil firstWriteLanded "uB" w in
  HouseController.getTasksForHouse specUtil firstWriteLanded "uB" w = r
  ∧ (∀ id t, tasks w !! id = Some t → house t ≠ "H1" → tasks r.2 !! id = Some t)
  ∧ users r.2 = users w ∧ houses r.2 = houses w
  ∧ (∀ l, r.1 = Return l →
       (∀ id t, tasks w !! id = Some t → house t = "H1" →
            ∃ t', tasks r.2 !! id = Some t' ∧ house t' = "H1" ∧
                  ((t' = t ∧ notDue (clock w) t) ∨ rolledOver (clock w) t t'))
       ∧ dom (tasks r.2) = dom (tasks w)
       ∧ (∀ id t', (id, t') ∈ l →
            house t' = "H1" ∧
            ∃ t, tasks w !! id = Some t ∧ house t = "H1" ∧
                 (t' = t ∨ tasks r.2 !! id = Some t'))
       ∧ (∀ id t, tasks w !! id = Some t → house t = "H1" →
            ∃ t', (id, t') ∈ l ∧ (t' = t ∨ tasks r.2 !! id = Some t'))
       ∧ NoDup l.*1
       ∧ ((∀ i, firstWriteLanded i = true) →
            l = tasksOfHouse "H1" (map_to_list (tasks r.2))))
  ∧ (∀ e, r.1 = Throw e → tasks r.2 = tasks w)
  ∧ ∃ l, r.1 = Return l.
Proof.
  intros w r.
  destruct (C5_getTasksForHouse_sweeps_own_household firstWriteLanded "uB" w
              (mkUser "B" (Some "H1")) "H1" (mkHouse "A" "code-1" "first house"))
    as (Hsame & Hother & Husers & Hhouses & Hret & Hthrow & Htotal).
  { repeat split; vm_compute; reflexivity. }
  split; [exact Hsame|]. split; [exact Hother|]. split; [exact Husers|].
  split; [exact Hhouses|]. split; [exact Hret|]. split; [exact Hthrow|].
  apply Htotal. intros id t Hm _.
  change (tasks w) with demoTasks in Hm. unfold demoTasks in Hm.
  repeat (apply lookup_insert_Some in Hm as [[_ <-]|[_ Hm]];
          [repeat split; eauto; discriminate|]).
  by rewrite lookup_empty in Hm.
Defined.

(** C5 as the spec states it fails: the answer need not come from a reload
    after the rollover writes.  At instant 90000 tasks [T1] and [T2] of
    house [H1] are due; when no write has landed by the time the reload is
    answered, the request answers the two tasks as they were stored before,
    which is not the household's tasks as stored after the writes. *)
Lemma C5_counterexample_reload_before_writes :
  let w := world 90000 [1%nat] in
  let r := TasksController.getTasksForHouse specUtil (λ _, false) "uB" w in
  r.1 = Return (tasksOfHouse "H1" (map_to_list (tasks w)))
  ∧ r.1 = Return [("T1", T1); ("T2", T2)]
  ∧ tasksOfHouse "H1" (map_to_list (tasks r.2))
    = [("T1", mkTask "H1" "dishes" "wash them" ["uB"; "uC"] (Some "uB")
                     (Some 86400%Z) (Some 87400%Z) None);
       ("T2", mkTask "H1" "bins" "take them out" ["uB"; "uC"] (Some "uC")
                     (Some 3600%Z) (Some 5600%Z) None)]
  ∧ r.1 ≠ Return (tasksOfHouse "H1" (map_to_list (tasks r.2))).
Proof.
  intros w r. split_and!; try (vm_compute; reflexivity).
  vm_compute. discriminate.
Qed.

(** The sweep on the example household at instant 90000, every write landed
    before the reload: [T1] and [T2] of house [H1] are rolled over once, [T2]
    gets the assignee the draw selects, [T3] of house [H2] is neither written
    nor returned. *)
Example getTasksForHouse_demo :
  let r := TasksController.getTasksForHouse specUtil (λ _, true) "uB"
             (world 90000 [1%nat]) in
  r.1 = Return
          [("T1", mkTask "H1" "dishes" "wash them" ["uB"; "uC"] (Some "uB")
                         (Some 86400%Z) (Some 87400%Z) None);
           ("T2", mkTask "H1" "bins" "take them out" ["uB"; "uC"] (Some "uC")
                         (Some 3600%Z) (Some 5600%Z) None)]
  ∧ tasks r.2 !! "T3" = Some T3.
Proof. split; vm_compute; reflexivity. Qed.

(** * Further properties of the handlers *)

(** ** Creating a task *)

(** X1. With a pool that is not empty, a member's create-task request stores
    exactly one new task under a key that was free; the task belongs to the
    caller's household, takes its other fields from the body, has no
    completion, and is assigned to a member of its pool.  Every task stored
    before, and every user and house document, is as it was. *)
Theorem createTask_stores_task_in_callers_house (dto : CreateTaskDto) (uid : Uid)
    (w : World) u hid h :
  inHousehold w uid u hid h → c_pool dto ≠ [] →
  let r := TasksController.createTask specUtil dto uid w in
  let id := fresh (dom (tasks w)) in
  r.1 = Return tt
  ∧ tasks w !! id = None
  ∧ (∃ a, a ∈ c_pool dto ∧
          tasks r.2 !! id =
            Some (mkTask hid (c_name dto) (c_description dto) (c_pool dto) (Some a)
                         (c_interval dto) (c_due_date dto) None))
  ∧ (∀ id' t, tasks w !! id' = Some t → tasks r.2 !! id' = Some t)
  ∧ dom (tasks r.2) = {[id]} ∪ dom (tasks w)
  ∧ users r.2 = users w ∧ houses r.2 = houses w.
Proof.
  intros Hin Hne r id. subst r.
  assert (Hfresh : tasks w !! id = None).
  { apply not_elem_of_dom, is_fresh. }
  destruct (spec_selectRandomUser_nonempty (c_pool dto) w Hne) as (a & Ha & Hsel).
  unfold TasksController.createTask. prologue Hin.
  rewrite bool_decide_eq_false_2
    by (destruct (c_pool dto); [done | simpl; lia]).
  change (selectRandomUser specUtil (c_pool dto) w)
    with (spec_selectRandomUser (c_pool dto) w).
  rewrite Hsel. cbv [taskStoreService.create].
  cbn [fst snd tasks users houses set_tasks set_random].
  fold id. split_and!; try done.
  - exists a. split; [done|]. by rewrite lookup_insert_eq.
  - intros id' t Ht. rewrite lookup_insert_ne; [done|]. intros <-. congruence.
  - apply dom_insert_L.
Qed.

Lemma createTask_stores_task_in_callers_house_witness :
  let dto := mkCreateTaskDto "windows" "clean them" ["uC"; "uA"] (Some 60%Z) (Some 0%Z) in
  let w := world 0 [4%nat] in
  let r := TasksController.createTask specUtil dto "uB" w in
  let id := fresh (dom (tasks w)) in
  r.1 = Return tt
  ∧ tasks w !! id = None
  ∧ (∃ a, a ∈ c_pool dto ∧
          tasks r.2 !! id =
            Some (mkTask "H1" (c_name dto) (c_description dto) (c_pool dto) (Some a)
                         (c_interval dto) (c_due_date dto) None))
  ∧ (∀ id' t, tasks w !! id' = Some t → tasks r.2 !! id' = Some t)
  ∧ dom (tasks r.2) = {[id]} ∪ dom (tasks w)
  ∧ users r.2 = users w ∧ houses r.2 = houses w.
Proof.
  intros dto w.
  apply (createTask_stores_task_in_callers_house dto "uB" w
           (mkUser "B" (Some "H1")) "H1" (mkHouse "A" "code-1" "first house")).
  - repeat split; vm_compute; reflexivity.
  - discriminate.
Defined.

(** X2. The two create-task handlers differ on the empty pool only: on every
    other body they are the same computation, whatever utility is injected
    and whoever calls. *)
Theorem createTask_controllers_agree_on_nonempty_pool (util : TaskUtil)
    (dto : CreateTaskDto) (uid : Uid) (w : World) :
  c_pool dto ≠ [] →
  HouseController.createTask util dto uid w =
  TasksController.createTask util dto uid w.
Proof.
  intros Hne.
  unfold HouseController.createTask, TasksController.createTask.
  cbv [bind ret throw deref userStoreService.findOneByFirebaseId
       houseStoreService.findOne].
  destruct (users w !! uid) as [u|]; [|reflexivity].
  destruct (user_house u) as [hid|]; [|reflexivity].
  destruct (houses w !! hid) as [h|]; [|reflexivity].
  cbn [fmap option_fmap option_map].
  rewrite bool_decide_eq_false_2
    by (destruct (c_pool dto); [done | simpl; lia]).
  reflexivity.
Qed.

Lemma createTask_controllers_agree_on_nonempty_pool_witness :
  let dto := mkCreateTaskDto "windows" "clean them" ["uC"] None None in
  HouseController.createTask indexUtil dto "uB" (world 0 []) =
  TasksController.createTask indexUtil dto "uB" (world 0 []).
Proof.
  intros dto.
  apply (createTask_controllers_agree_on_nonempty_pool indexUtil dto "uB" (world 0 [])).
  discriminate.
Defined.

(** ** Callers without a household *)

(** X3. A caller whose user document has no household reference, or refers to a
    house that is not stored, is refused by create-task and list-tasks of
    both controllers with "user is not in a house" (400); nothing is selected
    and nothing is written. *)
Theorem tasks_refused_without_household (util : TaskUtil) (sched : nat → bool)
    (dto : CreateTaskDto) (uid : Uid) (w : World) u :
  users w !! uid = Some u →
  (user_house u = None ∨ ∃ hid, user_house u = Some hid ∧ houses w !! hid = None) →
  TasksController.createTask util dto uid w = (Throw NotInHouseholdError, w)
  ∧ HouseController.createTask util dto uid w = (Throw NotInHouseholdError, w)
  ∧ TasksController.getTasksForHouse util sched uid w = (Throw NotInHouseholdError, w)
  ∧ HouseController.getTasksForHouse util sched uid w = (Throw NotInHouseholdError, w).
Proof.
  intros Hu Hh.
  unfold TasksController.createTask, HouseController.createTask,
    TasksController.getTasksForHouse, HouseController.getTasksForHouse.
  cbv [bind ret throw deref userStoreService.findOneByFirebaseId
       houseStoreService.findOne].
  rewrite Hu.
  destruct Hh as [->|(hid & -> & ->)]; repeat split; reflexivity.
Qed.

Lemma tasks_refused_without_household_witness :
  let w := mkWorld (<["uE" := mkUser "E" None]> demoUsers) demoHouses demoTasks 0 [] in
  let dto := mkCreateTaskDto "windows" "clean them" ["uE"] None None in
  TasksController.createTask specUtil dto "uE" w = (Throw NotInHouseholdError, w)
  ∧ HouseController.createTask specUtil dto "uE" w = (Throw NotInHouseholdError, w)
  ∧ TasksController.getTasksForHouse specUtil firstWriteLanded "uE" w =
      (Throw NotInHouseholdError, w)
  ∧ HouseController.getTasksForHouse specUtil firstWriteLanded "uE" w =
      (Throw NotInHouseholdError, w).
Proof.
  intros w dto.
  apply (tasks_refused_without_household specUtil firstWriteLanded dto "uE" w
           (mkUser "E" None)).
  - vm_compute; reflexivity.
  - left; reflexivity.
Defined.

(** X4. Delete-task of both controllers and modify-task refuse a caller whose
    user document has no household reference with "user is not in the house"
    (400), before any task is looked up; nothing is written. *)
Theorem delete_modify_refused_without_household_reference
    (isValidObjectId : string → bool) (util : TaskUtil) (id : string) (uid : Uid)
    (dto : UpdateHouseTasksDto) (w : World) u :
  users w !! uid = Some u → user_house u = None →
  TasksController.deleteTaskFromHouse id uid w =
    (Throw (HttpException "user is not in the house" BAD_REQUEST), w)
  ∧ HouseController.deleteTaskFromHouse id uid w =
    (Throw (HttpException "user is not in the house" BAD_REQUEST), w)
  ∧ TasksController.modifyTask isValidObjectId util id uid dto w =
    (Throw (HttpException "user is not in the house" BAD_REQUEST), w).
Proof.
  intros Hu Hh.
  unfold TasksController.deleteTaskFromHouse, HouseController.deleteTaskFromHouse,
    TasksController.modifyTask.
  cbv [bind ret throw deref userStoreService.findOneByFirebaseId].
  rewrite Hu, Hh. repeat split; reflexivity.
Qed.

Lemma delete_modify_refused_without_household_reference_witness :
  let w := mkWorld (<["uE" := mkUser "E" None]> demoUsers) demoHouses demoTasks 0 [] in
  TasksController.deleteTaskFromHouse "T1" "uE" w =
    (Throw (HttpException "user is not in the house" BAD_REQUEST), w)
  ∧ HouseController.deleteTaskFromHouse "T1" "uE" w =
    (Throw (HttpException "user is not in the house" BAD_REQUEST), w)
  ∧ TasksController.modifyTask demoValid specUtil "T1" "uE"
      (mkUpdateHouseTasksDto (Some "plates") None None) w =
    (Throw (HttpException "user is not in the house" BAD_REQUEST), w).
Proof.
  intros w.
  apply (delete_modify_refused_without_household_reference demoValid specUtil
           "T1" "uE" (mkUpdateHouseTasksDto (Some "plates") None None) w
           (mkUser "E" None)).
  - vm_compute; reflexivity.
  - reflexivity.
Defined.

(** X5. Unlike create-task and list-tasks, delete-task and modify-task do not
    check that the caller's house is stored: for a caller whose household
    reference dangles, delete-task ends in the [TypeError] of reading
    [house.owner] (status 500), and so does modify-task once the task is
    found; nothing is written. *)
Theorem delete_modify_crash_on_dangling_household
    (isValidObjectId : string → bool) (util : TaskUtil) (id : string) (uid : Uid)
    (dto : UpdateHouseTasksDto) (w : World) u hid :
  users w !! uid = Some u → user_house u = Some hid → houses w !! hid = None →
  TasksController.deleteTaskFromHouse id uid w = (Throw (TypeError "owner"), w)
  ∧ HouseController.deleteTaskFromHouse id uid w = (Throw (TypeError "owner"), w)
  ∧ responseStatus TasksController.deleteTaskFromHouse_HttpCode
      (TasksController.deleteTaskFromHouse id uid w).1 = 500%Z
  ∧ (isValidObjectId id = true → is_Some (tasks w !! id) →
       TasksController.modifyTask isValidObjectId util id uid dto w =
         (Throw (TypeError "owner"), w)).
Proof.
  intros Hu Hh Hhd.
  assert (Hdel : TasksController.deleteTaskFromHouse id uid w =
                   (Throw (TypeError "owner"), w)).
  { unfold TasksController.deleteTaskFromHouse.
    cbv [bind ret throw deref userStoreService.findOneByFirebaseId
         houseStoreService.findOne taskStoreService.findOne].
    rewrite Hu, Hh, Hhd. reflexivity. }
  split; [exact Hdel|]. split; [exact Hdel|]. split; [by rewrite Hdel|].
  intros Hv [t Ht]. unfold TasksController.modifyTask.
  cbv [bind ret throw deref userStoreService.findOneByFirebaseId
       houseStoreService.findOne taskStoreService.findOne].
  rewrite Hu, Hh, Hhd, Hv. cbn [negb fmap option_fmap option_map]. rewrite Ht.
  reflexivity.
Qed.

Lemma delete_modify_crash_on_dangling_household_witness :
  let w := mkWorld (<["uE" := mkUser "E" (Some "H9")]> demoUsers) demoHouses demoTasks 0 [] in
  TasksController.deleteTaskFromHouse "T1" "uE" w = (Throw (TypeError "owner"), w)
  ∧ HouseController.deleteTaskFromHouse "T1" "uE" w = (Throw (TypeError "owner"), w)
  ∧ responseStatus TasksController.deleteTaskFromHouse_HttpCode
      (TasksController.deleteTaskFromHouse "T1" "uE" w).1 = 500%Z
  ∧ TasksController.modifyTask demoValid specUtil "T1" "uE"
      (mkUpdateHouseTasksDto (Some "plates") None None) w =
      (Throw (TypeError "owner"), w).
Proof.
  intros w.
  destruct (delete_modify_crash_on_dangling_household demoValid specUtil "T1" "uE"
              (mkUpdateHouseTasksDto (Some "plates") None None) w
              (mkUser "E" (Some "H9")) "H9")
    as (H1 & H2 & H3 & H4);
    [vm_compute; reflexivity | reflexivity | vm_compute; reflexivity |].
  split; [exact H1|]. split; [exact H2|]. split; [exact H3|].
  apply H4; [reflexivity|]. exists T1. vm_compute; reflexivity.
Defined.

(** ** Completing a task *)

(** X6. A complete-task request whose route id is not a valid object id is
    answered 404 "task does not exist" without any lookup; one whose id is
    valid but not stored is answered 404 "task not found".  Neither depends
    on the caller, and nothing is written. *)
Theorem markTaskAsComplete_not_found (isValidObjectId : string → bool)
    (dto : CompleteTaskDto) (id : string) (uid : Uid) (w : World) :
  (isValidObjectId id = false →
     TasksController.markTaskAsComplete isValidObjectId dto id uid w =
       (Throw (HttpException "task does not exist" NOT_FOUND), w))
  ∧ (isValidObjectId id = true → tasks w !! id = None →
     TasksController.markTaskAsComplete isValidObjectId dto id uid w =
       (Throw TaskNotFoundError, w))
  ∧ (tasks w !! id = None →
     responseStatus 200
       (TasksController.markTaskAsComplete isValidObjectId dto id uid w).1 = 404%Z).
Proof.
  unfold TasksController.markTaskAsComplete.
  cbv [bind ret throw taskStoreService.findOne].
  split_and!.
  - intros ->. reflexivity.
  - intros Hv Ht. rewrite Hv. cbn [negb]. rewrite Ht. reflexivity.
  - intros Ht. destruct (isValidObjectId id); cbn [negb]; rewrite ?Ht; reflexivity.
Qed.

Lemma markTaskAsComplete_not_found_witness :
  TasksController.markTaskAsComplete demoValid (mkCompleteTaskDto true)
      "no such id" "uB" (world 0 []) =
    (Throw (HttpException "task does not exist" NOT_FOUND), world 0 [])
  ∧ TasksController.markTaskAsComplete demoValid (mkCompleteTaskDto true)
      "T9" "uB" (world 0 []) = (Throw TaskNotFoundError, world 0 [])
  ∧ responseStatus 200
      (TasksController.markTaskAsComplete demoValid (mkCompleteTaskDto true)
         "T9" "uB" (world 0 [])).1 = 404%Z.
Proof.
  split; [|split].
  - apply (markTaskAsComplete_not_found demoValid (mkCompleteTaskDto true)
             "no such id" "uB" (world 0 [])). reflexivity.
  - apply (markTaskAsComplete_not_found demoValid (mkCompleteTaskDto true)
             "T9" "uB" (world 0 [])); [reflexivity | vm_compute; reflexivity].
  - apply (markTaskAsComplete_not_found demoValid (mkCompleteTaskDto true)
             "T9" "uB" (world 0 [])). vm_compute; reflexivity.
Defined.

Lemma set_tasks_set_tasks m1 m2 w : set_tasks m1 (set_tasks m2 w) = set_tasks m1 w.
Proof. reflexivity. Qed.

Lemma set_tasks_id w : set_tasks (tasks w) w = w.
Proof. by destruct w. Qed.

Lemma withLastCompleted_id t : withLastCompleted (last_completed t) t = t.
Proof. by destruct t. Qed.

(** What the assignee's request does, completing or uncompleting. *)
Lemma markTaskAsComplete_assigned (isValidObjectId : string → bool)
    (dto : CompleteTaskDto) (id : string) (uid : Uid) (w : World) (t : Task) :
  isValidObjectId id = true → tasks w !! id = Some t → assigned t = Some uid →
  TasksController.markTaskAsComplete isValidObjectId dto id uid w =
    (Return tt,
     set_tasks
       (<[id := withLastCompleted
                  (if isComplete dto then Some (clock w) else None) t]>
          (tasks w)) w).
Proof.
  intros Hv Ht Ha. unfold TasksController.markTaskAsComplete.
  rewrite Hv. cbn [negb].
  cbv [bind ret throw taskStoreService.findOne]. rewrite Ht.
  cbn [fmap option_fmap option_map fst snd].
  rewrite bool_decide_eq_true_2 by done. cbn [negb].
  destruct (isComplete dto);
    cbv [Date_now taskStoreService.update];
    rewrite (alter_lookup_Some _ _ _ _ Ht); reflexivity.
Qed.

(** X7. Completing a task and then uncompleting it, both by the assignee and
    however much time passes in between, leaves the task with no completion
    and every other field, task and document as before the two requests;
    when the task had no completion to begin with, the store of tasks is back
    to what it was.  Completing again later replaces the instant of the
    first completion by that of the second request. *)
Theorem complete_then_uncomplete (isValidObjectId : string → bool)
    (id : string) (uid : Uid) (w : World) (t : Task) (later : Z) :
  isValidObjectId id = true → tasks w !! id = Some t → assigned t = Some uid →
  let complete := TasksController.markTaskAsComplete isValidObjectId
                    (mkCompleteTaskDto true) id uid in
  let uncomplete := TasksController.markTaskAsComplete isValidObjectId
                      (mkCompleteTaskDto false) id uid in
  let w1 := set_clock later (complete w).2 in
  uncomplete w1 =
    (Return tt,
     set_clock later (set_tasks (<[id := withLastCompleted None t]> (tasks w)) w))
  ∧ (last_completed t = None → tasks (uncomplete w1).2 = tasks w)
  ∧ complete w1 =
    (Return tt,
     set_clock later
       (set_tasks (<[id := withLastCompleted (Some later) t]> (tasks w)) w)).
Proof.
  intros Hv Ht Ha complete uncomplete w1. subst complete uncomplete w1.
  rewrite (markTaskAsComplete_assigned _ (mkCompleteTaskDto true) _ _ _ _ Hv Ht Ha).
  cbn [snd isComplete].
  set (t1 := withLastCompleted (Some (clock w)) t).
  set (w1 := set_clock later (set_tasks (<[id:=t1]> (tasks w)) w)).
  assert (Ht1 : tasks w1 !! id = Some t1) by apply lookup_insert_eq.
  assert (Ha1 : assigned t1 = Some uid) by done.
  assert (Hun : TasksController.markTaskAsComplete isValidObjectId
                  (mkCompleteTaskDto false) id uid w1 =
                (Return tt,
                 set_clock later
                   (set_tasks (<[id := withLastCompleted None t]> (tasks w)) w))).
  { rewrite (markTaskAsComplete_assigned _ (mkCompleteTaskDto false) _ _ _ _ Hv Ht1 Ha1).
    cbn [isComplete]. subst w1. cbn [tasks set_tasks set_clock].
    rewrite insert_insert_eq. reflexivity. }
  split_and!.
  - exact Hun.
  - intros Hnone. rewrite Hun. cbn [snd tasks set_tasks set_clock].
    rewrite <- Hnone, withLastCompleted_id. by apply insert_id.
  - rewrite (markTaskAsComplete_assigned _ (mkCompleteTaskDto true) _ _ _ _ Hv Ht1 Ha1).
    cbn [isComplete]. subst w1. cbn [tasks set_tasks set_clock clock].
    rewrite insert_insert_eq. reflexivity.
Qed.

Lemma complete_then_uncomplete_witness :
  let complete := TasksController.markTaskAsComplete demoValid
                    (mkCompleteTaskDto true) "T1" "uB" in
  let uncomplete := TasksController.markTaskAsComplete demoValid
                      (mkCompleteTaskDto false) "T1" "uB" in
  let w1 := set_clock 9 (complete (world 7 [])).2 in
  uncomplete w1 =
    (Return tt,
     set_clock 9 (set_tasks (<["T1" := withLastCompleted None T1]> (tasks (world 7 [])))
                            (world 7 [])))
  ∧ (last_completed T1 = None → tasks (uncomplete w1).2 = tasks (world 7 []))
  ∧ complete w1 =
    (Return tt,
     set_clock 9 (set_tasks (<["T1" := withLastCompleted (Some 9%Z) T1]>
                               (tasks (world 7 []))) (world 7 []))).
Proof.
  apply (complete_then_uncomplete demoValid "T1" "uB" (world 7 []) T1 9);
    [reflexivity | vm_compute; reflexivity | reflexivity].
Defined.

(** ** Modifying a task *)

(** X8. A modify-task request for a stored task by a caller who is not the owner
    of the caller's own household is refused with "user is not owner of
    house" (400); the selector is not consulted and nothing is written. *)
Theorem modifyTask_refuses_non_owner (isValidObjectId : string → bool)
    (util : TaskUtil) (id : string) (uid : Uid) (dto : UpdateHouseTasksDto)
    (w : World) u hid h t :
  inHousehold w uid u hid h → owner h ≠ _id u →
  isValidObjectId id = true → tasks w !! id = Some t →
  TasksController.modifyTask isValidObjectId util id uid dto w =
    (Throw (HttpException "user is not owner of house" BAD_REQUEST), w).
Proof.
  intros Hin Hne Hv Ht. unfold TasksController.modifyTask. prologue Hin.
  rewrite Hv. cbn [negb]. rewrite Ht.
  cbn [fmap option_fmap option_map fst snd].
  rewrite bool_decide_eq_false_2 by done. reflexivity.
Qed.

Lemma modifyTask_refuses_non_owner_witness :
  TasksController.modifyTask demoValid specUtil "T1" "uB"
      (mkUpdateHouseTasksDto None None (Some ["uC"])) (world 0 [5%nat]) =
    (Throw (HttpException "user is not owner of house" BAD_REQUEST), world 0 [5%nat]).
Proof.
  apply (modifyTask_refuses_non_owner demoValid specUtil "T1" "uB"
           (mkUpdateHouseTasksDto None None (Some ["uC"])) (world 0 [5%nat])
           (mkUser "B" (Some "H1")) "H1" (mkHouse "A" "code-1" "first house") T1).
  - repeat split; vm_compute; reflexivity.
  - simpl; discriminate.
  - reflexivity.
  - vm_compute; reflexivity.
Defined.

(** X9. For a caller with a household reference, a modify-task request whose
    route id is invalid, or valid but not stored, is answered 404 "task does
    not exist".  The answer comes before the ownership check, so owners and
    other members get it alike; nothing is written. *)
Theorem modifyTask_not_found (isValidObjectId : string → bool)
    (util : TaskUtil) (id : string) (uid : Uid) (dto : UpdateHouseTasksDto)
    (w : World) u hid :
  users w !! uid = Some u → user_house u = Some hid →
  (isValidObjectId id = false ∨ tasks w !! id = None) →
  TasksController.modifyTask isValidObjectId util id uid dto w =
    (Throw (HttpException "task does not exist" NOT_FOUND), w).
Proof.
  intros Hu Hh Hid. unfold TasksController.modifyTask.
  cbv [bind ret throw deref userStoreService.findOneByFirebaseId
       houseStoreService.findOne taskStoreService.findOne].
  rewrite Hu, Hh.
  destruct (isValidObjectId id) eqn:Hv; cbn [negb]; [|reflexivity].
  destruct Hid as [Hf | Hn]; [done|]. rewrite Hn. reflexivity.
Qed.

Lemma modifyTask_not_found_witness :
  TasksController.modifyTask demoValid specUtil "T9" "uB"
      (mkUpdateHouseTasksDto (Some "plates") None None) (world 0 []) =
    (Throw (HttpException "task does not exist" NOT_FOUND), world 0 []).
Proof.
  apply (modifyTask_not_found demoValid specUtil "T9" "uB"
           (mkUpdateHouseTasksDto (Some "plates") None None) (world 0 [])
           (mkUser "B" (Some "H1")) "H1").
  - vm_compute; reflexivity.
  - reflexivity.
  - right. vm_compute; reflexivity.
Defined.

(** X10. An owner's edit that supplies the empty pool always reaches the selector,
    since the empty pool includes no assignee: the handler is the selector
    run on the empty pool followed by the write.  With the spec's selector
    the request ends in [InvalidPoolError] and nothing is written. *)
Theorem modifyTask_empty_pool_unguarded (isValidObjectId : string → bool)
    (util : TaskUtil) (id : string) (uid : Uid) (dto : UpdateHouseTasksDto)
    (w : World) u hid h t :
  inHousehold w uid u hid h → owner h = _id u →
  isValidObjectId id = true → tasks w !! id = Some t →
  d_pool dto = Some [] →
  TasksController.modifyTask isValidObjectId util id uid dto w =
    (let! a := selectRandomUser util [] in
     let! _ := taskStoreService.update id
                 (mkTaskPartial (d_name dto) (d_description dto) (Some [])
                                (Some a) None None) in
     ret tt) w
  ∧ TasksController.modifyTask isValidObjectId specUtil id uid dto w =
      (Throw InvalidPoolError, w).
Proof.
  intros Hin Ho Hv Ht Hp.
  assert (Hrun : ∀ util',
            TasksController.modifyTask isValidObjectId util' id uid dto w =
              (let! a := selectRandomUser util' [] in
               let! _ := taskStoreService.update id
                           (mkTaskPartial (d_name dto) (d_description dto) (Some [])
                                          (Some a) None None) in
               ret tt) w).
  { intros util'. unfold TasksController.modifyTask.
    pose proof Hin as Hin'. prologue Hin'.
    rewrite Hv. cbn [negb]. rewrite Ht.
    cbn [fmap option_fmap option_map fst snd].
    rewrite bool_decide_eq_true_2 by done. cbn [negb].
    rewrite ?Hp.
    assert (Hinc : includes [] (assigned t) = false).
    { destruct (assigned t); reflexivity. }
    rewrite Hinc. reflexivity. }
  split; [apply Hrun|]. rewrite Hrun. reflexivity.
Qed.

Lemma modifyTask_empty_pool_unguarded_witness :
  let dto := mkUpdateHouseTasksDto None None (Some []) in
  TasksController.modifyTask demoValid indexUtil "T1" "uA" dto (world 0 []) =
    (let! a := selectRandomUser indexUtil [] in
     let! _ := taskStoreService.update "T1"
                 (mkTaskPartial (d_name dto) (d_description dto) (Some [])
                                (Some a) None None) in
     ret tt) (world 0 [])
  ∧ TasksController.modifyTask demoValid specUtil "T1" "uA" dto (world 0 []) =
      (Throw InvalidPoolError, world 0 []).
Proof.
  intros dto.
  apply (modifyTask_empty_pool_unguarded demoValid indexUtil "T1" "uA" dto
           (world 0 []) (mkUser "A" (Some "H1")) "H1"
           (mkHouse "A" "code-1" "first house") T1).
  - repeat split; vm_compute; reflexivity.
  - reflexivity.
  - reflexivity.
  - vm_compute; reflexivity.
  - reflexivity.
Defined.

(** X11. Every owner's edit that returns keeps the task's household,
    interval, due date and completion, and takes name, description and pool
    from the body where it has them and from the stored task otherwise.  It
    keeps the assignee inside the pool: when the stored assignee, if any, was
    a member of the stored pool, the assignee after the edit, if any, is a
    member of the pool after the edit.  The other tasks and all user and
    house documents are untouched.  The edit returns for every body but the
    one with the empty pool, and it puts no condition on the household the
    task belongs to. *)
Theorem modifyTask_frame (isValidObjectId : string → bool)
    (id : string) (uid : Uid) (dto : UpdateHouseTasksDto) (w : World) u hid h t :
  inHousehold w uid u hid h → owner h = _id u →
  isValidObjectId id = true → tasks w !! id = Some t →
  d_pool dto ≠ Some [] →
  let r := TasksController.modifyTask isValidObjectId specUtil id uid dto w in
  r.1 = Return tt
  ∧ (∃ t', tasks r.2 !! id = Some t' ∧
           house t' = house t ∧ interval t' = interval t ∧
           due_date t' = due_date t ∧ last_completed t' = last_completed t ∧
           name t' = default (name t) (d_name dto) ∧
           description t' = default (description t) (d_description dto) ∧
           pool t' = default (pool t) (d_pool dto) ∧
           ((∀ a, assigned t = Some a → a ∈ pool t) →
            ∀ a, assigned t' = Some a → a ∈ pool t'))
  ∧ (∀ id', id' ≠ id → tasks r.2 !! id' = tasks w !! id')
  ∧ users r.2 = users w ∧ houses r.2 = houses w ∧ clock r.2 = clock w.
Proof.
  intros Hin Ho Hv Ht Hp r. subst r.
  assert (Hcase : (d_pool dto = None
                   ∨ ∃ p, d_pool dto = Some p ∧ includes p (assigned t) = true)
                  ∨ ∃ p, d_pool dto = Some p ∧ p ≠ [] ∧ includes p (assigned t) = false).
  { destruct (d_pool dto) as [p|] eqn:Hdp; [|by left; left].
    destruct (includes p (assigned t)) eqn:Hinc.
    - left. right. by exists p.
    - right. exists p. split_and!; [done| |done]. intros ->. by apply Hp. }
  destruct Hcase as [Hno|(p & Hdp & Hne & Hinc)].
  - rewrite (modifyTask_no_reassignment isValidObjectId specUtil id uid dto w
               u hid h t Hin Ho Hv Ht Hno).
    cbn [fst snd tasks users houses clock set_tasks].
    split_and!; try done.
    + eexists. split; [apply lookup_insert_eq|].
      split_and!; try done. cbn. intros Hinv a Ha.
      destruct Hno as [Hdp|(p & Hdp & Hinc)]; rewrite Hdp; cbn.
      * by apply Hinv.
      * rewrite Ha in Hinc. simpl in Hinc. by apply bool_decide_eq_true in Hinc.
    + intros id' Hid. by rewrite lookup_insert_ne.
  - destruct (spec_selectRandomUser_nonempty p w Hne) as (a & Ha & Hsel).
    rewrite (modifyTask_reassignment isValidObjectId specUtil id uid dto w
               u hid h t Hin Ho Hv Ht p (Some a) _ Hdp Hinc Hsel).
    cbn [fst snd tasks users houses clock set_tasks set_random].
    split_and!; try done.
    + eexists. split; [by rewrite lookup_alter_eq, Ht|].
      cbn. rewrite Hdp. split_and!; try done. by intros _ a' [= <-].
    + intros id' Hid. by rewrite lookup_alter_ne.
Qed.

Lemma modifyTask_frame_witness :
  let dto := mkUpdateHouseTasksDto (Some "mowing") None (Some ["uA"; "uC"]) in
  let r := TasksController.modifyTask demoValid specUtil "T3" "uA" dto (world 0 [3%nat]) in
  house T3 ≠ "H1"
  ∧ r.1 = Return tt
  ∧ (∃ t', tasks r.2 !! "T3" = Some t' ∧
           house t' = house T3 ∧ interval t' = interval T3 ∧
           due_date t' = due_date T3 ∧ last_completed t' = last_completed T3 ∧
           name t' = default (name T3) (d_name dto) ∧
           description t' = default (description T3) (d_description dto) ∧
           pool t' = default (pool T3) (d_pool dto) ∧
           ((∀ a, assigned T3 = Some a → a ∈ pool T3) →
            ∀ a, assigned t' = Some a → a ∈ pool t'))
  ∧ (∀ id', id' ≠ "T3" → tasks r.2 !! id' = tasks (world 0 [3%nat]) !! id')
  ∧ users r.2 = users (world 0 [3%nat]) ∧ houses r.2 = houses (world 0 [3%nat])
  ∧ clock r.2 = clock (world 0 [3%nat]).
Proof.
  intros dto. split; [simpl; discriminate|].
  apply (modifyTask_frame demoValid "T3" "uA" dto (world 0 [3%nat])
           (mkUser "A" (Some "H1")) "H1" (mkHouse "A" "code-1" "first house") T3).
  - repeat split; vm_compute; reflexivity.
  - reflexivity.
  - reflexivity.
  - vm_compute; reflexivity.
  - simpl; discriminate.
Defined.

(** ** Deleting a task *)

(** X12. The owner's delete removes the one task and nothing else: every other
    task, user and house document is as before.  The same request sent again
    finds no task and ends in the [TypeError] of reading [task._id]
    (status 500), changing nothing. *)
Theorem deleteTask_removes_one_then_crashes (id : string) (uid : Uid)
    (w : World) u hid h t :
  inHousehold w uid u hid h → owner h = _id u → tasks w !! id = Some t →
  let w1 := (TasksController.deleteTaskFromHouse id uid w).2 in
  tasks w1 !! id = None
  ∧ (∀ id', id' ≠ id → tasks w1 !! id' = tasks w !! id')
  ∧ dom (tasks w1) = dom (tasks w) ∖ {[id]}
  ∧ users w1 = users w ∧ houses w1 = houses w
  ∧ TasksController.deleteTaskFromHouse id uid w1 = (Throw (TypeError "_id"), w1)
  ∧ responseStatus TasksController.deleteTaskFromHouse_HttpCode
      (TasksController.deleteTaskFromHouse id uid w1).1 = 500%Z.
Proof.
  intros Hin Ho Ht w1. subst w1.
  rewrite (deleteTaskFromHouse_owner id uid w u hid h Hin t Ho Ht).
  cbn [snd].
  set (w1 := set_tasks (delete id (tasks w)) w).
  assert (Hgone : tasks w1 !! id = None) by apply lookup_delete_eq.
  assert (Hin1 : inHousehold w1 uid u hid h) by exact Hin.
  pose proof (deleteTaskFromHouse_owner_missing_task id uid w1 u hid h Hin1 Ho Hgone)
    as Hagain.
  split_and!; try done.
  - intros id' Hid. by apply lookup_delete_ne.
  - apply dom_delete_L.
  - by rewrite Hagain.
Qed.

Lemma deleteTask_removes_one_then_crashes_witness :
  let w1 := (TasksController.deleteTaskFromHouse "T2" "uA" (world 0 [])).2 in
  tasks w1 !! "T2" = None
  ∧ (∀ id', id' ≠ "T2" → tasks w1 !! id' = tasks (world 0 []) !! id')
  ∧ dom (tasks w1) = dom (tasks (world 0 [])) ∖ {["T2"]}
  ∧ users w1 = users (world 0 []) ∧ houses w1 = houses (world 0 [])
  ∧ TasksController.deleteTaskFromHouse "T2" "uA" w1 = (Throw (TypeError "_id"), w1)
  ∧ responseStatus TasksController.deleteTaskFromHouse_HttpCode
      (TasksController.deleteTaskFromHouse "T2" "uA" w1).1 = 500%Z.
Proof.
  apply (deleteTask_removes_one_then_crashes "T2" "uA" (world 0 [])
           (mkUser "A" (Some "H1")) "H1" (mkHouse "A" "code-1" "first house") T2).
  - repeat split; vm_compute; reflexivity.
  - reflexivity.
  - vm_compute; reflexivity.
Defined.

(** ** Listing tasks *)

Lemma checkRecurrenceAt_nothing_due (now : Z) (ts : list TaskDocument) (w : World) :
  (∀ d, d ∈ ts → notDue now d.2) →
  checkRecurrenceAt now ts w = (Return [], w).
Proof.
  induction ts as [|[id t] ts IH]; intros Hnd; [reflexivity|].
  cbn [checkRecurrenceAt].
  destruct (Hnd (id, t)) as (d & i & Hd & Hi & Hlt); [by left|].
  rewrite (bind_Return _ _ _ _ _ (evaluate_not_due t d i Hd Hi now w Hlt)).
  rewrite (bind_Return _ _ w [] w); [reflexivity|].
  apply IH. intros d' Hd'. apply Hnd. by right.
Qed.

(** X13. When no task of the caller's household is due, listing is a pure read:
    the answer is the household's tasks as stored, and the world, the random
    source included, is exactly as before. *)
Theorem getTasksForHouse_read_only_when_nothing_due (sched : nat → bool)
    (uid : Uid) (w : World) u hid h :
  inHousehold w uid u hid h →
  (∀ id t, tasks w !! id = Some t → house t = hid → notDue (clock w) t) →
  TasksController.getTasksForHouse specUtil sched uid w =
    (Return (tasksOfHouse hid (map_to_list (tasks w))), w)
  ∧ HouseController.getTasksForHouse specUtil sched uid w =
    (Return (tasksOfHouse hid (map_to_list (tasks w))), w).
Proof.
  intros Hin Hnd.
  assert (Hrun : TasksController.getTasksForHouse specUtil sched uid w =
                   (Return (tasksOfHouse hid (map_to_list (tasks w))), w)).
  { rewrite (getTasksForHouse_run sched uid w u hid h Hin).
    rewrite checkRecurrenceAt_nothing_due.
    - cbn [pendingWrites applyDue foldl]. by rewrite set_tasks_id.
    - intros [id t] [Hm Hh]%elem_of_tasksOfHouse. by eapply Hnd. }
  split; exact Hrun.
Qed.

Lemma getTasksForHouse_read_only_when_nothing_due_witness :
  TasksController.getTasksForHouse specUtil firstWriteLanded "uD" (world 1059 [2%nat]) =
    (Return (tasksOfHouse "H2" (map_to_list (tasks (world 1059 [2%nat])))),
     world 1059 [2%nat])
  ∧ HouseController.getTasksForHouse specUtil firstWriteLanded "uD" (world 1059 [2%nat]) =
    (Return (tasksOfHouse "H2" (map_to_list (tasks (world 1059 [2%nat])))),
     world 1059 [2%nat]).
Proof.
  apply (getTasksForHouse_read_only_when_nothing_due firstWriteLanded "uD"
           (world 1059 [2%nat])
           (mkUser "D" (Some "H2")) "H2" (mkHouse "D" "code-2" "second house")).
  - repeat split; vm_compute; reflexivity.
  - intros id t Hm Hh.
    change (tasks (world 1059 [2%nat])) with demoTasks in Hm. unfold demoTasks in Hm.
    apply lookup_insert_Some in Hm as [[_ <-]|[_ Hm]]; [discriminate Hh|].
    apply lookup_insert_Some in Hm as [[_ <-]|[_ Hm]]; [discriminate Hh|].
    apply lookup_insert_Some in Hm as [[_ <-]|[_ Hm]].
    + exists 1000%Z, 60%Z. split_and!; [reflexivity | reflexivity | simpl; lia].
    + by rewrite lookup_empty in Hm.
Defined.

(** X14. Whatever [checkRecurrence] reports and whichever writes have
    landed when the reload is answered, listing never adds or removes a task
    and writes only to the ids reported; the answer holds tasks of the
    caller's household only, and a task in it whose id was not reported is as
    it was stored.  When [checkRecurrence] throws, the handler throws the
    same and writes nothing itself. *)
Theorem getTasksForHouse_writes_only_reported_ids (util : TaskUtil)
    (sched : nat → bool) (uid : Uid) (w : World) u hid h :
  inHousehold w uid u hid h →
  let ts := tasksOfHouse hid (map_to_list (tasks w)) in
  (∀ due w1, checkRecurrence util ts w = (Return due, w1) →
     let r := TasksController.getTasksForHouse util sched uid w in
     (∃ l, r.1 = Return l ∧
           ∀ id t, (id, t) ∈ l →
             house t = hid ∧ (id ∉ due_id <$> due → tasks w1 !! id = Some t))
     ∧ dom (tasks r.2) = dom (tasks w1)
     ∧ (∀ id, id ∉ due_id <$> due → tasks r.2 !! id = tasks w1 !! id)
     ∧ users r.2 = users w1 ∧ houses r.2 = houses w1)
  ∧ (∀ e w1, checkRecurrence util ts w = (Throw e, w1) →
     TasksController.getTasksForHouse util sched uid w = (Throw e, w1)).
Proof.
  intros Hin ts.
  assert (Hrun : TasksController.getTasksForHouse util sched uid w =
            match checkRecurrence util ts w with
            | (Return due, w1) =>
                let seen := applyDue (pendingWrites sched true 0 due) (tasks w1) in
                (Return (tasksOfHouse hid (map_to_list seen)),
                 set_tasks (applyDue (pendingWrites sched false 0 due) seen) w1)
            | (Throw e, w1) => (Throw e, w1)
            end).
  { unfold TasksController.getTasksForHouse. pose proof Hin as Hin'. prologue Hin'.
    cbv [taskStoreService.findAll]. fold ts.
    destruct (checkRecurrence util ts w) as [[due|e] w1]; [|done].
    rewrite !forEach_update. reflexivity. }
  split.
  - intros due w1 Hc r. subst r. rewrite Hrun, Hc.
    cbn zeta. cbn [fst snd tasks users houses set_tasks].
    split_and!; try done.
    + eexists. split; [reflexivity|].
      intros id t [Hm Hh]%elem_of_tasksOfHouse. split; [done|].
      intros Hid. rewrite applyDue_notin in Hm; [done|].
      by apply pendingWrites_ids.
    + by rewrite !applyDue_dom.
    + intros id Hid. rewrite !applyDue_notin; [done|..]; by apply pendingWrites_ids.
  - intros e w1 Hc. by rewrite Hrun, Hc.
Qed.

Lemma getTasksForHouse_writes_only_reported_ids_witness :
  let w := world 90000 [1%nat] in
  let ts := tasksOfHouse "H1" (map_to_list (tasks w)) in
  (∀ due w1, checkRecurrence specUtil ts w = (Return due, w1) →
     let r := TasksController.getTasksForHouse specUtil firstWriteLanded "uB" w in
     (∃ l, r.1 = Return l ∧
           ∀ id t, (id, t) ∈ l →
             house t = "H1" ∧ (id ∉ due_id <$> due → tasks w1 !! id = Some t))
     ∧ dom (tasks r.2) = dom (tasks w1)
     ∧ (∀ id, id ∉ due_id <$> due → tasks r.2 !! id = tasks w1 !! id)
     ∧ users r.2 = users w1 ∧ houses r.2 = houses w1)
  ∧ (∀ e w1, checkRecurrence specUtil ts w = (Throw e, w1) →
     TasksController.getTasksForHouse specUtil firstWriteLanded "uB" w = (Throw e, w1)).
Proof.
  intros w.
  apply (getTasksForHouse_writes_only_reported_ids specUtil firstWriteLanded "uB" w
           (mkUser "B" (Some "H1")) "H1" (mkHouse "A" "code-1" "first house")).
  repeat split; vm_compute; reflexivity.
Defined.

(** ** The house endpoints *)

Lemma head_filter_unique {A} (P : A → Prop) `{∀ x, Decision (P x)} (l : list A) (x : A) :
  x ∈ l → P x → (∀ y, y ∈ l → P y → y = x) → head (filter P l) = Some x.
Proof.
  induction l as [|a l IH]; intros Hin HP Huniq.
  - by apply elem_of_nil in Hin.
  - rewrite filter_cons. destruct (decide (P a)) as [Ha|Ha].
    + simpl. f_equal. apply Huniq; [by left|done].
    + apply IH; [|done|].
      * apply elem_of_cons in Hin as [->|Hin]; [done|exact Hin].
      * intros y Hy. apply Huniq. by right.
Qed.

Lemma head_filter_none {A} (P : A → Prop) `{∀ x, Decision (P x)} (l : list A) :
  (∀ y, y ∈ l → ¬ P y) → head (filter P l) = None.
Proof.
  induction l as [|a l IH]; intros Hno; [done|].
  rewrite filter_cons. destruct (decide (P a)) as [Ha|Ha].
  - destruct (Hno a); [by left|done].
  - apply IH. intros y Hy. apply Hno. by right.
Qed.

Lemma findOneByCode_found (w : World) c hid h :
  houseWithCode w c hid h →
  houseStoreService.findOneByCode c w = (Return (Some (hid, h)), w).
Proof.
  intros (Hh & Hc & Huniq). unfold houseStoreService.findOneByCode.
  f_equal. f_equal. apply head_filter_unique.
  - by apply elem_of_map_to_list.
  - exact Hc.
  - intros [hid' h'] Hin%elem_of_map_to_list Hc'. simpl in Hc'.
    pose proof (Huniq _ _ Hin Hc') as ->. congruence.
Qed.

Lemma findOneByCode_not_found (w : World) c :
  (∀ hid h, houses w !! hid = Some h → code h ≠ c) →
  houseStoreService.findOneByCode c w = (Return None, w).
Proof.
  intros Hno. unfold houseStoreService.findOneByCode.
  f_equal. f_equal. apply head_filter_none.
  intros [hid h] Hin%elem_of_map_to_list. simpl. by eapply Hno.
Qed.

Lemma movedInto_lookup uid hid us k v :
  movedInto uid hid us !! k = Some v →
  ∃ v0, us !! k = Some v0 ∧ _id v = _id v0.
Proof.
  unfold movedInto. rewrite lookup_alter. case_decide as Hk.
  - subst k. destruct (us !! uid) as [v0|]; simpl; [|done].
    intros [= <-]. by exists v0.
  - intros Hv. by exists v.
Qed.

Lemma findOne_user_found (w : World) uid hid oid ouid :
  userWithId w oid ouid →
  ∃ o, userStoreService.findOne oid (set_users (movedInto uid hid (users w)) w) =
         (Return (Some (ouid, o)), set_users (movedInto uid hid (users w)) w).
Proof.
  intros [(o & Ho & Hid) Huniq].
  assert (∃ o', movedInto uid hid (users w) !! ouid = Some o' ∧ _id o' = oid)
    as (o' & Ho' & Hid').
  { unfold movedInto. rewrite lookup_alter.
    case_decide as Hk; [subst ouid|]; rewrite Ho; by eexists. }
  exists o'. unfold userStoreService.findOne. cbn [users set_users].
  f_equal. f_equal. apply head_filter_unique.
  - by apply elem_of_map_to_list.
  - exact Hid'.
  - intros [k v] Hin%elem_of_map_to_list Hv. simpl in Hv.
    destruct (movedInto_lookup _ _ _ _ _ Hin) as (v0 & Hv0 & Hidv).
    assert (k = ouid) as -> by (eapply Huniq; [done|congruence]).
    congruence.
Qed.

Lemma findOne_user_not_found (w : World) uid hid oid :
  (∀ uid' u', users w !! uid' = Some u' → _id u' ≠ oid) →
  userStoreService.findOne oid (set_users (movedInto uid hid (users w)) w) =
    (Return None, set_users (movedInto uid hid (users w)) w).
Proof.
  intros Hno. unfold userStoreService.findOne. cbn [users set_users].
  f_equal. f_equal. apply head_filter_none.
  intros [k v] Hin%elem_of_map_to_list. simpl.
  destruct (movedInto_lookup _ _ _ _ _ Hin) as (v0 & Hv0 & Hidv).
  rewrite Hidv. by eapply Hno.
Qed.

(** X15. A join request with a code that no stored house has is refused with
    "code is invalid" (400) and changes nothing. *)
Theorem joinHouse_invalid_code (dto : JoinHouseDto) (uid : Uid) (w : World) :
  (∀ hid h, houses w !! hid = Some h → code h ≠ houseCode dto) →
  HouseController.joinHouse dto uid w =
    (Throw (HttpException "code is invalid" BAD_REQUEST), w).
Proof.
  intros Hno. unfold HouseController.joinHouse.
  rewrite (bind_Return _ _ _ _ _ (findOneByCode_not_found w _ Hno)).
  reflexivity.
Qed.

Lemma joinHouse_invalid_code_witness :
  HouseController.joinHouse (mkJoinHouseDto "code-3") "uB" (world 0 []) =
    (Throw (HttpException "code is invalid" BAD_REQUEST), world 0 []).
Proof.
  apply (joinHouse_invalid_code (mkJoinHouseDto "code-3") "uB" (world 0 [])).
  intros hid h Hh.
  change (houses (world 0 [])) with demoHouses in Hh. unfold demoHouses in Hh.
  apply lookup_insert_Some in Hh as [[_ <-]|[_ Hh]]; [discriminate|].
  apply lookup_insert_Some in Hh as [[_ <-]|[_ Hh]]; [discriminate|].
  by rewrite lookup_empty in Hh.
Defined.

(** What a join with a known code and a known owner does. *)
Lemma joinHouse_found (dto : JoinHouseDto) (uid : Uid) (w : World) hid h ouid :
  houseWithCode w (houseCode dto) hid h → userWithId w (owner h) ouid →
  HouseController.joinHouse dto uid w =
    (Return (mkHouseResponseDto (code h) ouid (house_name h)),
     set_users (movedInto uid hid (users w)) w).
Proof.
  intros Hhouse Howner.
  destruct (findOne_user_found w uid hid (owner h) ouid Howner) as (o & Hfind).
  unfold HouseController.joinHouse.
  rewrite (bind_Return _ _ _ _ _ (findOneByCode_found w _ _ _ Hhouse)).
  cbn [fst snd]. unfold bind at 1, userStoreService.updateByFirebaseId at 1.
  fold (movedInto uid hid (users w)).
  rewrite (bind_Return _ _ _ _ _ Hfind). reflexivity.
Qed.

(** X16. A join request with the code of a stored house moves the caller into
    that house and answers the house's code and name with the Firebase id of
    its real owner.  The caller's [_id] is kept, the caller's former
    household is dropped without any check, and every other user, every
    house (its owner included) and every task is as before. *)
Theorem joinHouse_moves_caller (dto : JoinHouseDto) (uid : Uid) (w : World)
    hid h ouid :
  houseWithCode w (houseCode dto) hid h → userWithId w (owner h) ouid →
  let r := HouseController.joinHouse dto uid w in
  r = (Return (mkHouseResponseDto (code h) ouid (house_name h)),
       set_users (movedInto uid hid (users w)) w)
  ∧ (∀ u, users w !! uid = Some u →
          users r.2 !! uid = Some (mkUser (_id u) (Some hid)))
  ∧ (∀ uid', uid' ≠ uid → users r.2 !! uid' = users w !! uid')
  ∧ houses r.2 = houses w ∧ tasks r.2 = tasks w.
Proof.
  intros Hhouse Howner r. subst r.
  rewrite (joinHouse_found dto uid w hid h ouid Hhouse Howner).
  cbn [fst snd users houses tasks set_users].
  split_and!; try done.
  - intros u Hu. unfold movedInto. by rewrite lookup_alter_eq, Hu.
  - intros uid' Hne. unfold movedInto. by rewrite lookup_alter_ne.
Qed.

Lemma demo_lookup_house (now : Z) (r : list nat) hid h :
  houses (world now r) !! hid = Some h →
  (hid = "H1" ∧ h = mkHouse "A" "code-1" "first house")
  ∨ (hid = "H2" ∧ h = mkHouse "D" "code-2" "second house").
Proof.
  change (houses (world now r)) with demoHouses. unfold demoHouses. intros Hh.
  apply lookup_insert_Some in Hh as [[<- <-]|[_ Hh]]; [by left|].
  apply lookup_insert_Some in Hh as [[<- <-]|[_ Hh]]; [by right|].
  by rewrite lookup_empty in Hh.
Qed.

Lemma demo_lookup_user (now : Z) (r : list nat) uid u :
  users (world now r) !! uid = Some u →
  (uid = "uA" ∧ u = mkUser "A" (Some "H1")) ∨ (uid = "uB" ∧ u = mkUser "B" (Some "H1"))
  ∨ (uid = "uC" ∧ u = mkUser "C" (Some "H1")) ∨ (uid = "uD" ∧ u = mkUser "D" (Some "H2")).
Proof.
  change (users (world now r)) with demoUsers. unfold demoUsers. intros Hu.
  apply lookup_insert_Some in Hu as [[<- <-]|[_ Hu]]; [by left|].
  apply lookup_insert_Some in Hu as [[<- <-]|[_ Hu]]; [by right; left|].
  apply lookup_insert_Some in Hu as [[<- <-]|[_ Hu]]; [by right; right; left|].
  apply lookup_insert_Some in Hu as [[<- <-]|[_ Hu]]; [by right; right; right|].
  by rewrite lookup_empty in Hu.
Qed.

Lemma demo_houseWithCode_H2 (now : Z) (r : list nat) :
  houseWithCode (world now r) "code-2" "H2" (mkHouse "D" "code-2" "second house").
Proof.
  split; [vm_compute; reflexivity|]. split; [reflexivity|].
  intros hid' h' [[-> ->]|[-> ->]]%demo_lookup_house; [discriminate|done].
Qed.

Lemma demo_userWithId_D (now : Z) (r : list nat) : userWithId (world now r) "D" "uD".
Proof.
  split.
  - exists (mkUser "D" (Some "H2")). split; [vm_compute; reflexivity|reflexivity].
  - intros uid' u' [[-> ->]|[[-> ->]|[[-> ->]|[-> ->]]]]%demo_lookup_user;
      [discriminate..|done].
Qed.

Lemma joinHouse_moves_caller_witness :
  let w := world 0 [] in
  let r := HouseController.joinHouse (mkJoinHouseDto "code-2") "uA" w in
  r = (Return (mkHouseResponseDto "code-2" "uD" "second house"),
       set_users (movedInto "uA" "H2" (users w)) w)
  ∧ (∀ u, users w !! "uA" = Some u →
          users r.2 !! "uA" = Some (mkUser (_id u) (Some "H2")))
  ∧ (∀ uid', uid' ≠ "uA" → users r.2 !! uid' = users w !! uid')
  ∧ houses r.2 = houses w ∧ tasks r.2 = tasks w.
Proof.
  intros w.
  apply (joinHouse_moves_caller (mkJoinHouseDto "code-2") "uA" w
           "H2" (mkHouse "D" "code-2" "second house") "uD").
  - apply demo_houseWithCode_H2.
  - apply demo_userWithId_D.
Defined.

(** X17. The caller is moved into the house before the owner is looked up: when no
    user document has the house's owner id, the join ends in the [TypeError]
    of reading [owner.firebaseId] (status 500) and the caller has been moved
    all the same. *)
Theorem joinHouse_moves_caller_before_owner_lookup (dto : JoinHouseDto)
    (uid : Uid) (w : World) hid h u :
  houseWithCode w (houseCode dto) hid h →
  (∀ uid' u', users w !! uid' = Some u' → _id u' ≠ owner h) →
  users w !! uid = Some u →
  let r := HouseController.joinHouse dto uid w in
  r.1 = Throw (TypeError "firebaseId")
  ∧ responseStatus 200 r.1 = 500%Z
  ∧ users r.2 !! uid = Some (mkUser (_id u) (Some hid)).
Proof.
  intros Hhouse Hno Hu r. subst r.
  assert (Hrun : HouseController.joinHouse dto uid w =
                   (Throw (TypeError "firebaseId"),
                    set_users (movedInto uid hid (users w)) w)).
  { unfold HouseController.joinHouse.
    rewrite (bind_Return _ _ _ _ _ (findOneByCode_found w _ _ _ Hhouse)).
    cbn [fst snd]. unfold bind at 1, userStoreService.updateByFirebaseId at 1.
    fold (movedInto uid hid (users w)).
    rewrite (bind_Return _ _ _ _ _ (findOne_user_not_found w uid hid _ Hno)).
    reflexivity. }
  rewrite Hrun. cbn [fst snd users set_users].
  split_and!; try done. unfold movedInto. by rewrite lookup_alter_eq, Hu.
Qed.

Lemma joinHouse_moves_caller_before_owner_lookup_witness :
  let w := mkWorld demoUsers (<["H3" := mkHouse "Z" "code-3" "third house"]> demoHouses)
                   demoTasks 0 [] in
  let r := HouseController.joinHouse (mkJoinHouseDto "code-3") "uB" w in
  r.1 = Throw (TypeError "firebaseId")
  ∧ responseStatus 200 r.1 = 500%Z
  ∧ users r.2 !! "uB" = Some (mkUser "B" (Some "H3")).
Proof.
  intros w.
  apply (joinHouse_moves_caller_before_owner_lookup (mkJoinHouseDto "code-3") "uB" w
           "H3" (mkHouse "Z" "code-3" "third house") (mkUser "B" (Some "H1"))).
  - split; [vm_compute; reflexivity|]. split; [reflexivity|].
    intros hid' h' Hh Hc. unfold w in Hh. cbn [houses] in Hh.
    apply lookup_insert_Some in Hh as [[<- _]|[_ Hh]]; [done|].
    apply (demo_lookup_house 0 []) in Hh as [[-> ->]|[-> ->]]; discriminate.
  - intros uid' u' [[-> ->]|[[-> ->]|[[-> ->]|[-> ->]]]]%(demo_lookup_user 0 []);
      discriminate.
  - vm_compute; reflexivity.
Defined.

(** X18. A join request from a caller without a user document is answered like
    any other, with the house's data, although nobody has joined: the world
    is unchanged. *)
Theorem joinHouse_unknown_caller (dto : JoinHouseDto) (uid : Uid) (w : World)
    hid h ouid :
  houseWithCode w (houseCode dto) hid h → userWithId w (owner h) ouid →
  users w !! uid = None →
  HouseController.joinHouse dto uid w =
    (Return (mkHouseResponseDto (code h) ouid (house_name h)), w).
Proof.
  intros Hhouse Howner Hu.
  destruct (findOne_user_found w uid hid (owner h) ouid Howner) as (o & Hfind).
  assert (Hsame : set_users (movedInto uid hid (users w)) w = w).
  { assert (movedInto uid hid (users w) = users w) as ->.
    { apply map_eq. intros k. unfold movedInto. rewrite lookup_alter.
      case_decide as Hk; [subst k; by rewrite Hu|done]. }
    by destruct w. }
  rewrite Hsame in Hfind.
  unfold HouseController.joinHouse.
  rewrite (bind_Return _ _ _ _ _ (findOneByCode_found w _ _ _ Hhouse)).
  cbn [fst snd]. unfold bind at 1, userStoreService.updateByFirebaseId at 1.
  fold (movedInto uid hid (users w)). rewrite Hsame.
  rewrite (bind_Return _ _ _ _ _ Hfind). reflexivity.
Qed.

Lemma joinHouse_unknown_caller_witness :
  HouseController.joinHouse (mkJoinHouseDto "code-2") "nobody" (world 0 []) =
    (Return (mkHouseResponseDto "code-2" "uD" "second house"), world 0 []).
Proof.
  apply (joinHouse_unknown_caller (mkJoinHouseDto "code-2") "nobody" (world 0 [])
           "H2" (mkHouse "D" "code-2" "second house") "uD").
  - apply demo_houseWithCode_H2.
  - apply demo_userWithId_D.
  - vm_compute; reflexivity.
Defined.

(** X19. The owner of a house who joins another house stays the recorded owner of
    the first one but acts from then on as a member of the second: every
    delete-task request of that caller is refused with [NotOwnerError]. *)
Theorem joinHouse_former_owner_loses_rights (dto : JoinHouseDto) (uid : Uid)
    (w : World) u hid1 h1 hid2 h2 ouid :
  inHousehold w uid u hid1 h1 → owner h1 = _id u →
  houseWithCode w (houseCode dto) hid2 h2 → userWithId w (owner h2) ouid →
  owner h2 ≠ _id u →
  let w1 := (HouseController.joinHouse dto uid w).2 in
  (∃ h, houses w1 !! hid1 = Some h ∧ owner h = _id u)
  ∧ (∀ id, TasksController.deleteTaskFromHouse id uid w1 = (Throw NotOwnerError, w1))
  ∧ (∀ id, HouseController.deleteTaskFromHouse id uid w1 = (Throw NotOwnerError, w1)).
Proof.
  intros (Hu & Hh & Hhd) Ho1 Hhouse Howner Hne w1. subst w1.
  rewrite (joinHouse_found dto uid w hid2 h2 ouid Hhouse Howner). cbn [snd].
  set (w1 := set_users (movedInto uid hid2 (users w)) w).
  assert (Hin1 : inHousehold w1 uid (mkUser (_id u) (Some hid2)) hid2 h2).
  { split; [|split; [done|by destruct Hhouse as [? _]]].
    subst w1. cbn [users set_users]. unfold movedInto.
    by rewrite lookup_alter_eq, Hu. }
  assert (Hdel : ∀ id, TasksController.deleteTaskFromHouse id uid w1 =
                         (Throw NotOwnerError, w1)).
  { intros id. by apply (deleteTaskFromHouse_not_owner id uid w1 _ hid2 h2 Hin1). }
  split; [by exists h1|]. split; [exact Hdel|]. exact Hdel.
Qed.

Lemma joinHouse_former_owner_loses_rights_witness :
  let w1 := (HouseController.joinHouse (mkJoinHouseDto "code-2") "uA" (world 0 [])).2 in
  (∃ h, houses w1 !! "H1" = Some h ∧ owner h = "A")
  ∧ (∀ id, TasksController.deleteTaskFromHouse id "uA" w1 = (Throw NotOwnerError, w1))
  ∧ (∀ id, HouseController.deleteTaskFromHouse id "uA" w1 = (Throw NotOwnerError, w1)).
Proof.
  apply (joinHouse_former_owner_loses_rights (mkJoinHouseDto "code-2") "uA" (world 0 [])
           (mkUser "A" (Some "H1")) "H1" (mkHouse "A" "code-1" "first house")
           "H2" (mkHouse "D" "code-2" "second house") "uD").
  - repeat split; vm_compute; reflexivity.
  - reflexivity.
  - apply demo_houseWithCode_H2.
  - apply demo_userWithId_D.
  - simpl; discriminate.
Defined.

(** X20. [getHouse] answers the code and name of the caller's house and names the
    caller as its owner, whoever owns the house; it changes nothing.  A
    caller without a stored house is answered with an exception of status
    204 (no content). *)
Theorem getHouse_names_caller_as_owner (uid : Uid) (w : World) u :
  users w !! uid = Some u →
  (∀ hid h, user_house u = Some hid → houses w !! hid = Some h →
     HouseController.getHouse uid w =
       (Return (mkHouseResponseDto (code h) uid (house_name h)), w))
  ∧ ((user_house u = None ∨ ∃ hid, user_house u = Some hid ∧ houses w !! hid = None) →
     HouseController.getHouse uid w =
       (Throw (HttpException "user is not in a house" NO_CONTENT), w)
     ∧ responseStatus 200 (HouseController.getHouse uid w).1 = 204%Z).
Proof.
  intros Hu. unfold HouseController.getHouse.
  cbv [bind ret throw deref userStoreService.findOneByFirebaseId
       houseStoreService.findOne].
  rewrite Hu. split.
  - intros hid h -> ->. reflexivity.
  - intros [->|(hid & -> & ->)]; split; reflexivity.
Qed.

Lemma getHouse_names_caller_as_owner_witness :
  owner (mkHouse "A" "code-1" "first house") ≠ _id (mkUser "B" (Some "H1"))
  ∧ HouseController.getHouse "uB" (world 0 []) =
      (Return (mkHouseResponseDto "code-1" "uB" "first house"), world 0 []).
Proof.
  split; [simpl; discriminate|].
  destruct (getHouse_names_caller_as_owner "uB" (world 0 []) (mkUser "B" (Some "H1")))
    as [Hin _]; [vm_compute; reflexivity|].
  apply (Hin "H1" (mkHouse "A" "code-1" "first house"));
    [reflexivity | vm_compute; reflexivity].
Defined.

(** X21. The two answers about one house disagree on the owner: a caller who joins
    a house is told the real owner's Firebase id, and the same caller asking
    [getHouse] right after is told the caller's own id, with the same code
    and name. *)
Theorem joinHouse_then_getHouse (dto : JoinHouseDto) (uid : Uid) (w : World)
    hid h ouid u :
  houseWithCode w (houseCode dto) hid h → userWithId w (owner h) ouid →
  users w !! uid = Some u →
  let joined := HouseController.joinHouse dto uid w in
  joined.1 = Return (mkHouseResponseDto (code h) ouid (house_name h))
  ∧ HouseController.getHouse uid joined.2 =
      (Return (mkHouseResponseDto (code h) uid (house_name h)), joined.2).
Proof.
  intros Hhouse Howner Hu joined. subst joined.
  rewrite (joinHouse_found dto uid w hid h ouid Hhouse Howner).
  cbn [fst snd]. split; [reflexivity|].
  unfold HouseController.getHouse.
  cbv [bind ret throw deref userStoreService.findOneByFirebaseId
       houseStoreService.findOne].
  cbn [users houses set_users]. unfold movedInto.
  rewrite lookup_alter_eq, Hu. cbn [fmap option_fmap option_map user_house].
  change (houses (set_users ?m w)) with (houses w).
  destruct Hhouse as [-> _]. reflexivity.
Qed.

Lemma joinHouse_then_getHouse_witness :
  let joined := HouseController.joinHouse (mkJoinHouseDto "code-2") "uB" (world 0 []) in
  joined.1 = Return (mkHouseResponseDto "code-2" "uD" "second house")
  ∧ HouseController.getHouse "uB" joined.2 =
      (Return (mkHouseResponseDto "code-2" "uB" "second house"), joined.2).
Proof.
  apply (joinHouse_then_getHouse (mkJoinHouseDto "code-2") "uB" (world 0 [])
           "H2" (mkHouse "D" "code-2" "second house") "uD" (mkUser "B" (Some "H1"))).
  - apply demo_houseWithCode_H2.
  - apply demo_userWithId_D.
  - vm_compute; reflexivity.
Defined.

(** What [create] does once the code is generated and the caller is known. *)
Lemma create_run (generateString : nat → M string) (dto : CreateHouseDto)
    (uid : Uid) (w : World) c w1 u :
  generateString 8 w = (Return c, w1) → users w1 !! uid = Some u →
  HouseController.create generateString dto uid w =
    (Return (mkHouseResponseDto c uid (ch_name dto)),
     set_users (movedInto uid (fresh (dom (houses w1))) (users w1))
       (set_houses (<[fresh (dom (houses w1)) := mkHouse (_id u) c (ch_name dto)]>
                      (houses w1)) w1)).
Proof.
  intros Hg Hu. unfold HouseController.create.
  rewrite (bind_Return _ _ _ _ _ Hg).
  cbv [bind ret deref userStoreService.findOneByFirebaseId houseStoreService.create
       userStoreService.updateByFirebaseId].
  rewrite Hu. reflexivity.
Qed.

(** X22. [create] stores a new house under a key that was free, with the
    generated code, the body's name and the caller as owner, and moves the
    caller into it: afterwards the caller is in that household and owns it,
    and [getHouse] answers what [create] answered.  The caller's former
    household is dropped without any check; the houses stored before, the
    other users and all tasks are as they were. *)
Theorem create_makes_caller_owner (generateString : nat → M string)
    (dto : CreateHouseDto) (uid : Uid) (w : World) c w1 u :
  generateString 8 w = (Return c, w1) → users w1 !! uid = Some u →
  let r := HouseController.create generateString dto uid w in
  let hid := fresh (dom (houses w1)) in
  let h := mkHouse (_id u) c (ch_name dto) in
  r.1 = Return (mkHouseResponseDto c uid (ch_name dto))
  ∧ houses w1 !! hid = None
  ∧ inHousehold r.2 uid (mkUser (_id u) (Some hid)) hid h
  ∧ owner h = _id u
  ∧ (∀ hid' h', houses w1 !! hid' = Some h' → houses r.2 !! hid' = Some h')
  ∧ (∀ uid', uid' ≠ uid → users r.2 !! uid' = users w1 !! uid')
  ∧ tasks r.2 = tasks w1
  ∧ HouseController.getHouse uid r.2 = (r.1, r.2).
Proof.
  intros Hg Hu r hid h. subst r.
  rewrite (create_run generateString dto uid w c w1 u Hg Hu).
  fold hid. fold h. cbn [fst snd].
  set (w2 := set_users (movedInto uid hid (users w1))
               (set_houses (<[hid:=h]> (houses w1)) w1)).
  assert (Hfresh : houses w1 !! hid = None) by apply not_elem_of_dom, is_fresh.
  assert (Hin : inHousehold w2 uid (mkUser (_id u) (Some hid)) hid h).
  { split; [|split; [done|]].
    - subst w2. cbn [users set_users set_houses]. unfold movedInto.
      by rewrite lookup_alter_eq, Hu.
    - subst w2. cbn [houses set_users set_houses]. apply lookup_insert_eq. }
  split_and!; try done.
  - intros hid' h' Hh'. subst w2. cbn [houses set_users set_houses].
    rewrite lookup_insert_ne; [done|]. intros <-. congruence.
  - intros uid' Hne. subst w2. cbn [users set_users set_houses]. unfold movedInto.
    by rewrite lookup_alter_ne.
  - destruct Hin as (Hu2 & Hh2 & Hhd2). unfold HouseController.getHouse.
    cbv [bind ret throw deref userStoreService.findOneByFirebaseId
         houseStoreService.findOne].
    rewrite Hu2. cbn [user_house]. rewrite Hhd2. reflexivity.
Qed.

Lemma create_makes_caller_owner_witness :
  let w := world 0 [] in
  let r := HouseController.create (constantGenerateString "code-9")
             (mkCreateHouseDto "ninth house") "uB" w in
  let hid := fresh (dom (houses w)) in
  let h := mkHouse "B" "code-9" "ninth house" in
  r.1 = Return (mkHouseResponseDto "code-9" "uB" "ninth house")
  ∧ houses w !! hid = None
  ∧ inHousehold r.2 "uB" (mkUser "B" (Some hid)) hid h
  ∧ owner h = "B"
  ∧ (∀ hid' h', houses w !! hid' = Some h' → houses r.2 !! hid' = Some h')
  ∧ (∀ uid', uid' ≠ "uB" → users r.2 !! uid' = users w !! uid')
  ∧ tasks r.2 = tasks w
  ∧ HouseController.getHouse "uB" r.2 = (r.1, r.2).
Proof.
  intros w.
  apply (create_makes_caller_owner (constantGenerateString "code-9")
           (mkCreateHouseDto "ninth house") "uB" w "code-9" w (mkUser "B" (Some "H1")));
    [reflexivity | vm_compute; reflexivity].
Defined.

(** X23. Any known caller can become able to delete any stored task: after
    [create], the caller owns the caller's household, and delete-task asks
    for nothing more. *)
Theorem create_then_delete_any_task (generateString : nat → M string)
    (dto : CreateHouseDto) (uid : Uid) (w : World) c w1 u (id : string) (t : Task) :
  generateString 8 w = (Return c, w1) → users w1 !! uid = Some u →
  tasks w1 !! id = Some t →
  let w2 := (HouseController.create generateString dto uid w).2 in
  tasks w2 !! id = Some t
  ∧ (TasksController.deleteTaskFromHouse id uid w2).1 = Return "task deleted successfully"
  ∧ tasks (TasksController.deleteTaskFromHouse id uid w2).2 !! id = None.
Proof.
  intros Hg Hu Ht w2. subst w2.
  rewrite (create_run generateString dto uid w c w1 u Hg Hu). cbn [snd].
  set (hid := fresh (dom (houses w1))).
  set (h := mkHouse (_id u) c (ch_name dto)).
  set (w2 := set_users _ _).
  assert (Hin : inHousehold w2 uid (mkUser (_id u) (Some hid)) hid h).
  { split; [|split; [done|]].
    - subst w2. cbn [users set_users set_houses]. unfold movedInto.
      by rewrite lookup_alter_eq, Hu.
    - subst w2. cbn [houses set_users set_houses]. apply lookup_insert_eq. }
  assert (Ht2 : tasks w2 !! id = Some t) by exact Ht.
  rewrite (deleteTaskFromHouse_owner id uid w2 _ hid h Hin t eq_refl Ht2).
  cbn [fst snd tasks set_tasks].
  split_and!; [done | done | apply lookup_delete_eq].
Qed.

Lemma create_then_delete_any_task_witness :
  let w2 := (HouseController.create (constantGenerateString "code-9")
               (mkCreateHouseDto "ninth house") "uC" (world 0 [])).2 in
  tasks w2 !! "T3" = Some T3
  ∧ (TasksController.deleteTaskFromHouse "T3" "uC" w2).1 = Return "task deleted successfully"
  ∧ tasks (TasksController.deleteTaskFromHouse "T3" "uC" w2).2 !! "T3" = None.
Proof.
  apply (create_then_delete_any_task (constantGenerateString "code-9")
           (mkCreateHouseDto "ninth house") "uC" (world 0 []) "code-9" (world 0 [])
           (mkUser "C" (Some "H1")) "T3" T3);
    [reflexivity | vm_compute; reflexivity | vm_compute; reflexivity].
Defined.

(** X24. A caller for whom no user document is stored makes every handler that
    looks the caller up end in a [TypeError] (status 500) with nothing
    written: the task handlers and [getHouse] when they read [userDoc.house],
    [create] when it reads the [_id], after the code has been generated. *)
Theorem unknown_caller_crashes (isValidObjectId : string → bool) (util : TaskUtil)
    (sched : nat → bool) (generateString : nat → M string) (uid : Uid) (w : World)
    (cdto : CreateTaskDto) (udto : UpdateHouseTasksDto) (hdto : CreateHouseDto)
    (id : string) :
  users w !! uid = None →
  TasksController.createTask util cdto uid w = (Throw (TypeError "house"), w)
  ∧ HouseController.createTask util cdto uid w = (Throw (TypeError "house"), w)
  ∧ TasksController.getTasksForHouse util sched uid w = (Throw (TypeError "house"), w)
  ∧ HouseController.getTasksForHouse util sched uid w = (Throw (TypeError "house"), w)
  ∧ TasksController.deleteTaskFromHouse id uid w = (Throw (TypeError "house"), w)
  ∧ HouseController.deleteTaskFromHouse id uid w = (Throw (TypeError "house"), w)
  ∧ TasksController.modifyTask isValidObjectId util id uid udto w =
      (Throw (TypeError "house"), w)
  ∧ HouseController.getHouse uid w = (Throw (TypeError "house"), w)
  ∧ (∀ c w1, generateString 8 w = (Return c, w1) → users w1 !! uid = None →
       HouseController.create generateString hdto uid w = (Throw (TypeError "_id"), w1)).
Proof.
  intros Hu.
  unfold TasksController.createTask, HouseController.createTask,
    TasksController.getTasksForHouse, HouseController.getTasksForHouse,
    TasksController.deleteTaskFromHouse, HouseController.deleteTaskFromHouse,
    TasksController.modifyTask, HouseController.getHouse.
  cbv [bind ret throw deref userStoreService.findOneByFirebaseId].
  rewrite Hu. split_and!; try reflexivity.
  intros c w1 Hg Hu1. unfold HouseController.create.
  rewrite (bind_Return _ _ _ _ _ Hg).
  cbv [bind ret throw deref userStoreService.findOneByFirebaseId].
  rewrite Hu1. reflexivity.
Qed.

Lemma unknown_caller_crashes_witness :
  let w := world 0 [] in
  let cdto := mkCreateTaskDto "windows" "clean them" ["uB"] None None in
  let udto := mkUpdateHouseTasksDto (Some "plates") None None in
  TasksController.createTask specUtil cdto "nobody" w = (Throw (TypeError "house"), w)
  ∧ HouseController.createTask specUtil cdto "nobody" w = (Throw (TypeError "house"), w)
  ∧ TasksController.getTasksForHouse specUtil firstWriteLanded "nobody" w =
      (Throw (TypeError "house"), w)
  ∧ HouseController.getTasksForHouse specUtil firstWriteLanded "nobody" w =
      (Throw (TypeError "house"), w)
  ∧ TasksController.deleteTaskFromHouse "T1" "nobody" w = (Throw (TypeError "house"), w)
  ∧ HouseController.deleteTaskFromHouse "T1" "nobody" w = (Throw (TypeError "house"), w)
  ∧ TasksController.modifyTask demoValid specUtil "T1" "nobody" udto w =
      (Throw (TypeError "house"), w)
  ∧ HouseController.getHouse "nobody" w = (Throw (TypeError "house"), w)
  ∧ HouseController.create (constantGenerateString "code-9")
      (mkCreateHouseDto "ninth house") "nobody" w = (Throw (TypeError "_id"), w).
Proof.
  intros w cdto udto.
  destruct (unknown_caller_crashes demoValid specUtil firstWriteLanded
              (constantGenerateString "code-9")
              "nobody" w cdto udto (mkCreateHouseDto "ninth house") "T1")
    as (H1 & H2 & H3 & H4 & H5 & H6 & H7 & H8 & H9); [vm_compute; reflexivity|].
  split; [exact H1|]. split; [exact H2|]. split; [exact H3|]. split; [exact H4|].
  split; [exact H5|]. split; [exact H6|]. split; [exact H7|]. split; [exact H8|].
  apply (H9 "code-9" w); [reflexivity | vm_compute; reflexivity].
Defined.
